(** * Stock dashboard: valuation, market-data client and holding forms

    A shallow embedding of the logic of
    [src/components/AddStockFrom.tsx] (ticker lookup, EUR->USD rate, form
    schema, submit handler) and of the portfolio table
    ([fetchStockPrices], [fetchExchangeRate], [EditHoldingForm],
    [PortfolioTable]).

    JavaScript numbers are IEEE-754 binary64 values; they are modelled by
    the Standard Library's [spec_float] at precision 53, so that rounding,
    overflow, [NaN] and signed zeros behave as in the running program.
    The arithmetic of the totals is written once over an interface of
    numeric operations and is read at binary64 (the program) and at the
    exact rationals (the arithmetic the program approximates).

    An object used as a dictionary ([Record<string, number>]) is a plain
    object: a finite map of own properties in front of the members it
    inherits from [Object.prototype]. Uppercasing a string is the
    Unicode mapping of the language and is left open: the functions
    that use it take it as an argument. Requests to the market-data API
    are answered by an oracle, and everything the program does to the
    outside (requests, alerts, writes to the store) is recorded in a log
    of events. Of the timers only those of the ticker field are kept,
    and rendering is left out. *)

From Stdlib Require Import ZArith QArith Bool List String Ascii Lia.
From Stdlib Require Import Floats.SpecFloat.
From stdpp Require Import gmap strings.
Import ListNotations.

Local Open Scope Z_scope.

#[local] Set Warnings "-register-all,-clear-no-such-hyp".

(** ** JavaScript numbers *)

Module JsNumber.

Definition prec : Z := 53.
Definition emax : Z := 1024.

Definition number : Type := spec_float.

(** An integer literal, correctly rounded. *)
Definition of_Z (z : Z) : number := binary_normalize prec emax z 0 false.

Definition add : number -> number -> number := SFadd prec emax.
Definition sub : number -> number -> number := SFsub prec emax.
Definition mul : number -> number -> number := SFmul prec emax.
Definition div : number -> number -> number := SFdiv prec emax.

(** [x === y] on numbers: [NaN] equals nothing, [+0 === -0]. *)
Definition strict_eq (x y : number) : bool := SFeqb x y.
(** [x < y]; [false] as soon as one side is [NaN]. *)
Definition lt (x y : number) : bool := SFltb x y.

Definition is_nan (x : number) : bool :=
  match x with S754_nan => true | _ => false end.

Definition is_finite (x : number) : bool :=
  match x with S754_zero _ | S754_finite _ _ _ => true | _ => false end.

(** ToBoolean on a number: [0], [-0] and [NaN] are falsy. *)
Definition truthy (x : number) : bool :=
  match x with S754_zero _ | S754_nan => false | _ => true end.

Definition zero : number := S754_zero false.
Definition one : number := Eval vm_compute in of_Z 1.
Definition hundred : number := Eval vm_compute in of_Z 100.

(** The literals [1.08] and [0.01]: the doubles nearest to 108/100 and
    to 1/100 (a correctly rounded quotient of exact integers). *)
Definition lit_1_08 : number := Eval vm_compute in div (of_Z 108) (of_Z 100).
Definition lit_0_01 : number := Eval vm_compute in div (of_Z 1) (of_Z 100).

End JsNumber.

Export JsNumber (number).

(** ** The arithmetic used by the totals *)

Class Arith (N : Type) : Type := {
  num_zero : N;
  num_hundred : N;
  num_add : N -> N -> N;
  num_sub : N -> N -> N;
  num_mul : N -> N -> N;
  num_div : N -> N -> N;
  (** [x === 0] *)
  num_is_zero : N -> bool
}.

#[export] Instance binary64_arith : Arith number := {
  num_zero := JsNumber.zero;
  num_hundred := JsNumber.hundred;
  num_add := JsNumber.add;
  num_sub := JsNumber.sub;
  num_mul := JsNumber.mul;
  num_div := JsNumber.div;
  num_is_zero := fun x => JsNumber.strict_eq x JsNumber.zero
}.

(** The same operations without rounding. *)
#[export] Instance exact_arith : Arith Q := {
  num_zero := 0%Q;
  num_hundred := 100%Q;
  num_add := Qplus;
  num_sub := Qminus;
  num_mul := Qmult;
  num_div := Qdiv;
  num_is_zero := fun x => Qeq_bool x 0%Q
}.

(** ** Plain objects used as dictionaries *)

(** What reading a property of the price object gives when it gives
    something: a number, or a member of [Object.prototype] (a function,
    or the prototype itself for [__proto__]). *)
Inductive reading (N : Type) : Type :=
| Number (n : N)
| Member (name : string).
Arguments Number {N} n.
Arguments Member {N} name.

Module PlainObject.

(** The names every plain object inherits from [Object.prototype]. *)
Definition inherited_names : list string :=
  [ "constructor"; "__defineGetter__"; "__defineSetter__"; "hasOwnProperty";
    "__lookupGetter__"; "__lookupSetter__"; "isPrototypeOf";
    "propertyIsEnumerable"; "toString"; "valueOf"; "__proto__"; "toLocaleString" ].

Definition inherited (k : string) : bool := existsb (String.eqb k) inherited_names.

(** [o[k]]: the own property, else the inherited member, else
    [undefined]. *)
Definition get {N : Type} (o : gmap string N) (k : string) : option (reading N) :=
  match o !! k with
  | Some n => Some (Number n)
  | None => if inherited k then Some (Member k) else None
  end.

(** [o[k] = v] for a number [v]. An own property is overwritten and a
    new name becomes an own property, except [__proto__]: on an object
    without that own property the assignment reaches the setter of
    [Object.prototype], which ignores a number. *)
Definition set {N : Type} (k : string) (v : N) (o : gmap string N) : gmap string N :=
  if String.eqb k "__proto__" then
    match o !! k with
    | Some _ => <[k := v]> o
    | None => o
    end
  else <[k := v]> o.

End PlainObject.

(** ** Valuation: [PortfolioTable] *)

Section Valuation.
Context {N : Type} `{Arith N}.

(** [interface PortfolioItem] *)
Record PortfolioItem : Type := {
  id : string;
  ticker : string;
  quantity : N;
  purchase_price : N;
  purchase_date : string
}.

(** [interface DisplayItem extends PortfolioItem]. The current price is
    declared a number; it holds whatever [prices[ticker] || 0] gave. *)
Record DisplayItem : Type := {
  item : PortfolioItem;
  current_price : reading N;
  market_value : N;
  cost_basis : N;
  gain_loss : N;
  gain_loss_percent : N
}.

(** [holdings.reduce((sum, item) => sum + item.market_value, 0) * exchangeRate] *)
Definition totalMarketValue (holdings : list DisplayItem) (exchangeRate : N) : N :=
  num_mul (fold_left (fun sum it => num_add sum (market_value it)) holdings num_zero)
          exchangeRate.

Definition totalCostBasis (holdings : list DisplayItem) (exchangeRate : N) : N :=
  num_mul (fold_left (fun sum it => num_add sum (cost_basis it)) holdings num_zero)
          exchangeRate.

Definition totalGainLoss (holdings : list DisplayItem) (exchangeRate : N) : N :=
  num_sub (totalMarketValue holdings exchangeRate) (totalCostBasis holdings exchangeRate).

Definition totalGainLossPercent (holdings : list DisplayItem) (exchangeRate : N) : N :=
  if num_is_zero (totalCostBasis holdings exchangeRate) then num_zero
  else num_mul (num_div (totalGainLoss holdings exchangeRate)
                        (totalCostBasis holdings exchangeRate))
               num_hundred.

(** A left-to-right sum starting from [0], the order [reduce] adds in. *)
Definition sum_from_zero (l : list N) : N := fold_left num_add l num_zero.

(** Each row converted first, then summed. *)
Definition sum_converted (f : DisplayItem -> N) (holdings : list DisplayItem)
    (exchangeRate : N) : N :=
  sum_from_zero (map (fun it => num_mul (f it) exchangeRate) holdings).

End Valuation.

Arguments PortfolioItem N : clear implicits.
Arguments DisplayItem N : clear implicits.

(** ToNumber of what was read: a function or an object is [NaN]. *)
Definition to_number (r : reading number) : number :=
  match r with
  | Number n => n
  | Member _ => S754_nan
  end.

(** [prices[t] || 0]: an absent name reads [undefined], which is falsy,
    and so are the numbers [0], [-0] and [NaN]; a member of
    [Object.prototype] is truthy. *)
Definition price_or_zero (prices : gmap string number) (t : string) : reading number :=
  match PlainObject.get prices t with
  | Some (Number p) => Number (if JsNumber.truthy p then p else JsNumber.zero)
  | Some (Member name) => Member name
  | None => Number JsNumber.zero
  end.

(** The callback of [portfolio.map] in [fetchPortfolio]. *)
Definition displayItem (prices : gmap string number) (it : PortfolioItem number)
    : DisplayItem number :=
  let currentPrice := price_or_zero prices (ticker it) in
  let costBasis := JsNumber.mul (quantity it) (purchase_price it) in
  let marketValue := JsNumber.mul (quantity it) (to_number currentPrice) in
  let gainLoss := JsNumber.sub marketValue costBasis in
  {| item := it;
     current_price := currentPrice;
     cost_basis := costBasis;
     market_value := marketValue;
     gain_loss := gainLoss;
     gain_loss_percent :=
       if JsNumber.strict_eq costBasis JsNumber.zero then JsNumber.zero
       else JsNumber.mul (JsNumber.div gainLoss costBasis) JsNumber.hundred |}.

Definition displayHoldings (portfolio : list (PortfolioItem number))
    (prices : gmap string number) : list (DisplayItem number) :=
  map (displayItem prices) portfolio.

(** The numbers a table row hands to [formatCurrency] and
    [formatPercent], in column order. *)
Record RowCells : Type := {
  cell_cost_per_share : number;
  cell_current_price : number;
  cell_market_value : number;
  cell_gain_loss : number;
  cell_gain_loss_percent : number
}.

Definition rowCells (exchangeRate : number) (holding : DisplayItem number) : RowCells :=
  {| cell_cost_per_share := JsNumber.mul (purchase_price (item holding)) exchangeRate;
     cell_current_price := JsNumber.mul (to_number (current_price holding)) exchangeRate;
     cell_market_value := JsNumber.mul (market_value holding) exchangeRate;
     cell_gain_loss := JsNumber.mul (gain_loss holding) exchangeRate;
     cell_gain_loss_percent := gain_loss_percent holding |}.

(** ** Parsed JSON and the JavaScript operations applied to it *)

(** What [response.json()] resolves to. An object is its list of own
    properties; reading a key takes the first binding. *)
Inductive json : Type :=
| JNull
| JBool (b : bool)
| JNum (n : number)
| JStr (s : string)
| JArr (elems : list json)
| JObj (fields : list (string * json)).

(** A value read out of parsed JSON: [undefined], or a JSON value. *)
Inductive value : Type :=
| Undefined
| Val (j : json).

(** An expression either yields a result or throws (a [TypeError] on
    reading a property of [null] or [undefined]). *)
Inductive completion (A : Type) : Type :=
| Normal (a : A)
| Throw.
Arguments Normal {A} a.
Arguments Throw {A}.

Definition cbind {A B : Type} (c : completion A) (k : A -> completion B) : completion B :=
  match c with
  | Normal a => k a
  | Throw => Throw
  end.

Declare Scope completion_scope.
Delimit Scope completion_scope with completion.
Notation "'let?' x ':=' c 'in' k" := (cbind c (fun x => k))
  (at level 10, x name, c at level 200, k at level 200) : completion_scope.

Module Js.

Definition own (k : string) (fields : list (string * json)) : value :=
  match find (fun kv => String.eqb (fst kv) k) fields with
  | Some kv => Val (snd kv)
  | None => Undefined
  end.

Definition length_value (n : nat) : value :=
  Val (JNum (JsNumber.of_Z (Z.of_nat n))).

(** [v.k], for the property names the program reads ([status],
    [results], [ticker], [name], [length], [c]): arrays and strings
    have a [length], objects have their own properties, the other
    primitives have none of these, [null] and [undefined] throw. *)
Definition get (v : value) (k : string) : completion value :=
  match v with
  | Undefined | Val JNull => Throw
  | Val (JObj fields) => Normal (own k fields)
  | Val (JArr elems) =>
      Normal (if String.eqb k "length" then length_value (List.length elems) else Undefined)
  | Val (JStr s) =>
      Normal (if String.eqb k "length" then length_value (String.length s) else Undefined)
  | Val (JBool _) | Val (JNum _) => Normal Undefined
  end.

(** [v[0]] *)
Definition get0 (v : value) : completion value :=
  match v with
  | Undefined | Val JNull => Throw
  | Val (JObj fields) => Normal (own "0" fields)
  | Val (JArr elems) =>
      Normal (match elems with x :: _ => Val x | [] => Undefined end)
  | Val (JStr s) =>
      Normal (match s with
              | String c _ => Val (JStr (String c EmptyString))
              | EmptyString => Undefined
              end)
  | Val (JBool _) | Val (JNum _) => Normal Undefined
  end.

(** ToBoolean *)
Definition truthy (v : value) : bool :=
  match v with
  | Undefined | Val JNull => false
  | Val (JBool b) => b
  | Val (JNum n) => JsNumber.truthy n
  | Val (JStr s) => negb (String.eqb s "")
  | Val (JArr _) | Val (JObj _) => true
  end.

(** [v || fallback] *)
Definition or_else (v : value) (fallback : json) : json :=
  match v with
  | Val j => if truthy v then j else fallback
  | Undefined => fallback
  end.

(** [v === "text"] *)
Definition is_string (v : value) (text : string) : bool :=
  match v with
  | Val (JStr s) => String.eqb s text
  | _ => false
  end.

(** [typeof v === "number"] *)
Definition as_number (v : value) : option number :=
  match v with
  | Val (JNum n) => Some n
  | _ => None
  end.

Section Coercion.
(** ToNumber on strings and arrays reads a numeral out of text; that
    conversion is left open. *)
Variable TextToNumber : json -> number.

(** ToNumber *)
Definition to_number (v : value) : number :=
  match v with
  | Undefined => S754_nan
  | Val JNull => JsNumber.zero
  | Val (JBool b) => if b then JsNumber.one else JsNumber.zero
  | Val (JNum n) => n
  | Val (JObj _) => S754_nan
  | Val (JStr s) => TextToNumber (JStr s)
  | Val (JArr elems) => TextToNumber (JArr elems)
  end.

(** [v > 0] *)
Definition positive (v : value) : bool :=
  JsNumber.lt JsNumber.zero (to_number v).
End Coercion.

End Js.

(** ** The outside world: market-data API, session and store *)

(** A request either fails ([fetch] or [response.json()] rejects) or
    resolves to parsed JSON. *)
Inductive response : Type :=
| FetchFails
| Json (data : json).

(** Row passed to [insert] by the add form. *)
Record InsertRow : Type := {
  ins_user_id : string;
  ins_ticker : string;
  ins_quantity : number;
  ins_purchase_price : number;
  ins_purchase_date : string
}.

(** Fields passed to [update] by the edit form. *)
Record UpdateFields : Type := {
  upd_quantity : number;
  upd_purchase_price : number;
  upd_purchase_date : string
}.

(** What the program does to the outside, in order. *)
Inductive event : Type :=
| Fetch (url : string)
| Alert (msg : string)
| Insert (row : InsertRow)
| Update (row_id : string) (fields : UpdateFields)
| OnSuccess
| OnClose.

(** A computation that may act on the outside: it extends the log of
    events so far. *)
Definition Async (A : Type) : Type := list event -> A * list event.

Definition ret {A : Type} (a : A) : Async A := fun log => (a, log).

Definition bind {A B : Type} (m : Async A) (k : A -> Async B) : Async B :=
  fun log => let (a, log') := m log in k a log'.

Definition emit (e : event) : Async unit := fun log => (tt, log ++ [e]).

Declare Scope async_scope.
Delimit Scope async_scope with async.
Notation "'await' x ':=' m 'in' k" := (bind m (fun x => k))
  (at level 10, x name, m at level 200, k at level 200) : async_scope.
Notation "'perform' m 'in' k" := (bind m (fun _ => k))
  (at level 10, m at level 200, k at level 200) : async_scope.

Definition requests (log : list event) : list string :=
  flat_map (fun e => match e with Fetch url => [url] | _ => [] end) log.

Definition inserts (log : list event) : list InsertRow :=
  flat_map (fun e => match e with Insert row => [row] | _ => [] end) log.

Definition updates (log : list event) : list (string * UpdateFields) :=
  flat_map (fun e => match e with Update i f => [(i, f)] | _ => [] end) log.

(** ** Market-data client *)

(** Result of [checkTickerAndName]. The source types [name] as
    [string | null]; at run time it is whatever JSON value the API put
    there, [JNull] standing for [null]. *)
Record TickerCheck : Type := {
  exists_ : bool;
  name : json
}.

Definition not_found : TickerCheck := {| exists_ := false; name := JNull |}.

(** [Object.fromEntries]: every entry becomes an own property, later
    entries overwriting earlier ones. *)
Definition fromEntries (entries : list (string * number)) : gmap string number :=
  fold_left (fun m kv => <[fst kv := snd kv]> m) entries ∅.

Section MarketData.
Local Open Scope completion_scope.
Local Open Scope async_scope.

(** [String.prototype.toUpperCase], whatever it does to each string. *)
Variable toUpperCase : string -> string.
(** [process.env.NEXT_PUBLIC_POLYGON_API_KEY], possibly unset. *)
Variable POLYGON_API_KEY : option string.
Variable TextToNumber : json -> number.
(** [network n url]: the outcome of requesting [url] when [n] events
    have already happened. *)
Variable network : nat -> string -> response.

(** [!POLYGON_API_KEY] *)
Definition key_missing : bool :=
  match POLYGON_API_KEY with
  | None => true
  | Some k => String.eqb k ""
  end.

Definition key_text : string :=
  match POLYGON_API_KEY with
  | None => "undefined"
  | Some k => k
  end.

(** [await fetch(url)] followed by [await response.json()]. *)
Definition fetch_json (url : string) : Async response :=
  fun log => (network (List.length log) url, log ++ [Fetch url]).

Definition tickerDetailsUrl (ticker : string) : string :=
  "https://api.polygon.io/v3/reference/tickers/" +:+ ticker +:+ "?apiKey=" +:+ key_text.

Definition prevCloseUrl (ticker : string) : string :=
  "https://api.polygon.io/v2/aggs/ticker/" +:+ ticker
    +:+ "/prev?adjusted=true&apiKey=" +:+ key_text.

(** [data.results && data.results.length > 0] *)
Definition has_results (data : value) : completion bool :=
  let? results := Js.get data "results" in
  if Js.truthy results then
    let? len := Js.get results "length" in
    Normal (Js.positive TextToNumber len)
  else Normal false.

(** [data.results[0].c] *)
Definition first_close (data : value) : completion value :=
  let? results := Js.get data "results" in
  let? first := Js.get0 results in
  Js.get first "c".

(** *** [checkTickerAndName] *)

(** The body of the [try] block once [data] is known. *)
Definition ticker_details (ticker : string) (data : json) : completion TickerCheck :=
  let? status := Js.get (Val data) "status" in
  if Js.is_string status "OK" then
    let? results := Js.get (Val data) "results" in
    if Js.truthy results then
      let? found := Js.get results "ticker" in
      if Js.is_string found (toUpperCase ticker) then
        let? nm := Js.get results "name" in
        Normal {| exists_ := true;
                  name := Js.or_else nm (JStr (toUpperCase ticker)) |}
      else Normal not_found
    else Normal not_found
  else Normal not_found.

Definition checkTickerAndName (ticker : string) : Async TickerCheck :=
  if String.eqb ticker "" || key_missing then ret not_found
  else
    await resp := fetch_json (tickerDetailsUrl ticker) in
    ret (match resp with
         | FetchFails => not_found
         | Json data =>
             match ticker_details ticker data with
             | Normal r => r
             | Throw => not_found
             end
         end).

(** *** [fetchEuroToUsdRate] *)

(** The [try] block: [Some r] when it returns [r], [None] when control
    leaves the [if] without returning. *)
Definition euro_close (data : json) : completion (option number) :=
  let? status := Js.get (Val data) "status" in
  if Js.is_string status "OK" then
    let? ok := has_results (Val data) in
    if ok then
      let? closeRate := first_close (Val data) in
      Normal (Some (match Js.as_number closeRate with
                    | Some r => r
                    | None => JsNumber.lit_1_08
                    end))
    else Normal None
  else Normal None.

Definition fetchEuroToUsdRate : Async number :=
  if key_missing then ret JsNumber.lit_1_08
  else
    await resp := fetch_json (prevCloseUrl "C:EURUSD") in
    ret (match resp with
         | FetchFails => JsNumber.lit_1_08
         | Json data =>
             match euro_close data with
             | Normal (Some r) => r
             | Normal None | Throw => JsNumber.lit_1_08
             end
         end).

(** *** [fetchStockPrices] *)

(** One iteration's [try]/[catch], once the request has settled: the
    value stored under the ticker. *)
Definition stored_price (resp : response) : number :=
  match resp with
  | FetchFails => JsNumber.zero
  | Json data =>
      match
        (if Js.truthy (Val data) then
           let? ok := has_results (Val data) in
           if ok then
             let? closePrice := first_close (Val data) in
             Normal (match Js.as_number closePrice with
                     | Some p => p
                     | None => JsNumber.zero
                     end)
           else Normal JsNumber.zero
         else Normal JsNumber.zero)
      with
      | Normal p => p
      | Throw => JsNumber.zero
      end
  end.

(** The [for ... of] loop over [tickers], [prices] being the object
    filled so far. *)
Fixpoint fetchStockPrices_loop (tickers : list string)
    (prices : gmap string number) : Async (gmap string number) :=
  match tickers with
  | [] => ret prices
  | ticker :: rest =>
      await resp := fetch_json (prevCloseUrl ticker) in
      fetchStockPrices_loop rest (PlainObject.set ticker (stored_price resp) prices)
  end.

Definition fetchStockPrices (tickers : list string) : Async (gmap string number) :=
  if key_missing then
    ret (fromEntries (map (fun ticker => (ticker, JsNumber.zero)) tickers))
  else fetchStockPrices_loop tickers ∅.

(** *** [fetchExchangeRate] *)

Definition exchange_close (data : json) : completion number :=
  if Js.truthy (Val data) then
    let? ok := has_results (Val data) in
    if ok then
      let? closeRate := first_close (Val data) in
      Normal (match Js.as_number closeRate with
              | Some r => r
              | None => JsNumber.one
              end)
    else Normal JsNumber.one
  else Normal JsNumber.one.

Definition fetchExchangeRate (from to : string) : Async number :=
  if String.eqb from to then ret JsNumber.one
  else if key_missing then ret JsNumber.one
  else
    await resp := fetch_json (prevCloseUrl ("C:" +:+ from +:+ to)) in
    ret (match resp with
         | FetchFails => JsNumber.one
         | Json data =>
             match exchange_close data with
             | Normal r => r
             | Throw => JsNumber.one
             end
         end).

End MarketData.

(** ** The add-holding dialog: [AddStockForm] *)

Module AddStockForm.

(** [z.infer<typeof formSchema>] *)
Record Values : Type := {
  ticker : string;
  quantity : number;
  purchase_price : number;
  purchase_date : string;
  purchase_currency : string
}.

(** [z.number().min(bound)]: [NaN] is not a number for the schema, and
    a value is too small when [x < bound]. Infinite values are let
    through, the most permissive reading of [z.number()]. *)
Definition number_min (bound x : number) : bool :=
  negb (JsNumber.is_nan x) && negb (JsNumber.lt x bound).

(** [z.string().min(1)] *)
Definition string_min1 (s : string) : bool := negb (String.eqb s "").

(** [z.enum(["USD", "EUR"])] *)
Definition currency_enum (s : string) : bool :=
  String.eqb s "USD" || String.eqb s "EUR".

Section Schema.
(** [String.prototype.toUpperCase], whatever it does to each string. *)
Variable toUpperCase : string -> string.

(** [formSchema]: the parsed values, or [None] when a field is
    rejected. *)
Definition formSchema (v : Values) : option Values :=
  if string_min1 (ticker v)
     && number_min JsNumber.one (quantity v)
     && number_min JsNumber.lit_0_01 (purchase_price v)
     && string_min1 (purchase_date v)
     && currency_enum (purchase_currency v)
  then Some {| ticker := toUpperCase (ticker v);
               quantity := quantity v;
               purchase_price := purchase_price v;
               purchase_date := purchase_date v;
               purchase_currency := purchase_currency v |}
  else None.

End Schema.

(** The message the resolver leaves on the ticker, if it leaves one. *)
Definition resolver_ticker_error (v : Values) : option string :=
  if string_min1 (ticker v) then None else Some "Ticker is required.".

(** The component's state, with the form's ticker error and its
    [isSubmitting] flag. *)
Record State : Type := {
  open : bool;
  tickerValidated : option bool;
  companyName : json;
  isChecking : bool;
  isSubmitting : bool;
  tickerError : option string
}.

(** [!tickerValidated] *)
Definition not_validated (st : State) : bool :=
  match tickerValidated st with
  | Some true => false
  | Some false | None => true
  end.

(** The [disabled] attribute of the submit button. *)
Definition submit_disabled (st : State) : bool :=
  isSubmitting st || not_validated st || isChecking st.

Definition with_ticker_error (e : option string) (st : State) : State :=
  {| open := open st;
     tickerValidated := tickerValidated st;
     companyName := companyName st;
     isChecking := isChecking st;
     isSubmitting := isSubmitting st;
     tickerError := e |}.

Section Handlers.
Local Open Scope async_scope.

Variable toUpperCase : string -> string.
Variable POLYGON_API_KEY : option string.
Variable TextToNumber : json -> number.
Variable network : nat -> string -> response.
(** [supabase.auth.getUser()]: the signed-in user's id, if any. *)
Variable user : option string.
(** The [error] of the insert, if any. *)
Variable insert_error : option string.

Definition performTickerCheck (tk : string) (st : State) : Async State :=
  if String.eqb tk "" then
    ret {| open := open st; tickerValidated := None; companyName := JNull;
           isChecking := isChecking st; isSubmitting := isSubmitting st;
           tickerError := None |}
  else
    await r := checkTickerAndName toUpperCase POLYGON_API_KEY network tk in
    ret {| open := open st;
           tickerValidated := Some (exists_ r);
           companyName := if exists_ r then name r else JNull;
           isChecking := false;
           isSubmitting := isSubmitting st;
           tickerError := if exists_ r then None
                          else Some "Ticker symbol not found or invalid." |}.

Definition onSubmit (values : Values) (st : State) : Async State :=
  if not_validated st then
    perform emit (Alert "Please validate the ticker before submitting.") in
    ret st
  else
    match user with
    | None =>
        perform emit (Alert "You must be logged in to add a stock.") in
        ret st
    | Some user_id =>
        await usdPrice :=
          (if String.eqb (purchase_currency values) "EUR" then
             await euroToUsdRate :=
               fetchEuroToUsdRate POLYGON_API_KEY TextToNumber network in
             ret (JsNumber.mul (purchase_price values) euroToUsdRate)
           else ret (purchase_price values)) in
        perform emit (Insert {| ins_user_id := user_id;
                                ins_ticker := ticker values;
                                ins_quantity := quantity values;
                                ins_purchase_price := usdPrice;
                                ins_purchase_date := purchase_date values |}) in
        match insert_error with
        | Some message =>
            perform emit (Alert ("Error: " +:+ message)) in
            ret st
        | None =>
            perform emit OnSuccess in
            ret {| open := false; tickerValidated := None; companyName := JNull;
                   isChecking := isChecking st; isSubmitting := isSubmitting st;
                   tickerError := None |}
        end
    end.

(** [form.handleSubmit(onSubmit)]: the resolver runs first and its
    errors replace the form's, a ticker error set by a check included;
    [onSubmit] is called, with the parsed values, only when the resolver
    accepts. *)
Definition handleSubmit (raw : Values) (st : State) : Async State :=
  match formSchema toUpperCase raw with
  | Some values => onSubmit values (with_ticker_error None st)
  | None => ret (with_ticker_error (resolver_ticker_error raw) st)
  end.

End Handlers.

End AddStockForm.

(** ** The edit dialog: [EditHoldingForm] *)

Module EditHoldingForm.

(** The fields of [holding] that seed the [data] state. *)
Definition seed (holding : PortfolioItem number) : number * number * string :=
  (quantity holding, purchase_price holding, purchase_date holding).

(** The [data] state. *)
Record Data : Type := {
  quantity : number;
  purchase_price : number;
  purchase_date : string
}.

Definition initial (holding : PortfolioItem number) : Data :=
  let '(q, p, d) := seed holding in
  {| quantity := q; purchase_price := p; purchase_date := d |}.

(** [x || 0] *)
Definition or_zero (x : number) : number :=
  if JsNumber.truthy x then x else JsNumber.zero.

(** The [onChange] handlers; [parsed] is what [parseFloat] returned for
    the text of the input. *)
Definition onQuantityChange (parsed : number) (data : Data) : Data :=
  {| quantity := or_zero parsed;
     purchase_price := purchase_price data;
     purchase_date := purchase_date data |}.

Definition onPriceChange (parsed : number) (data : Data) : Data :=
  {| quantity := quantity data;
     purchase_price := or_zero parsed;
     purchase_date := purchase_date data |}.

Definition onDateChange (text : string) (data : Data) : Data :=
  {| quantity := quantity data;
     purchase_price := purchase_price data;
     purchase_date := text |}.

Section Handlers.
Local Open Scope async_scope.

(** The [error] of the update, if any. *)
Variable update_error : option string.

Definition handleSave (holding : PortfolioItem number) (data : Data) : Async unit :=
  perform emit (Update (id holding)
                  {| upd_quantity := quantity data;
                     upd_purchase_price := purchase_price data;
                     upd_purchase_date := purchase_date data |}) in
  match update_error with
  | Some _ => emit (Alert "Could not update holding.")
  | None => perform emit OnSuccess in emit OnClose
  end.

End Handlers.

End EditHoldingForm.

(** ** [PortfolioTable]: refresh and currency switch *)

Section PortfolioTable.
Local Open Scope async_scope.

Variable POLYGON_API_KEY : option string.
Variable TextToNumber : json -> number.
Variable network : nat -> string -> response.

(** [Array.from(new Set(l))]: first occurrences, in order. *)
Fixpoint unique_from (seen l : list string) : list string :=
  match l with
  | [] => []
  | x :: rest =>
      if existsb (String.eqb x) seen then unique_from seen rest
      else x :: unique_from (x :: seen) rest
  end.

Definition uniqueTickers (portfolio : list (PortfolioItem number)) : list string :=
  unique_from [] (map ticker portfolio).

(** [fetchPortfolio]; [holdingsData] is [None] when the query fails and
    [current] is the [holdings] state before the call. *)
Definition fetchPortfolio (holdingsData : option (list (PortfolioItem number)))
    (current : list (DisplayItem number)) : Async (list (DisplayItem number)) :=
  match holdingsData with
  | None => ret current
  | Some [] => ret []
  | Some portfolio =>
      await prices :=
        fetchStockPrices POLYGON_API_KEY TextToNumber network (uniqueTickers portfolio) in
      ret (displayHoldings portfolio prices)
  end.

(** [handleCurrencyChange]: the new [exchangeRate]. *)
Definition handleCurrencyChange (newCurrency : string) : Async number :=
  if String.eqb newCurrency "USD" then ret JsNumber.one
  else fetchExchangeRate POLYGON_API_KEY TextToNumber network "USD" newCurrency.

End PortfolioTable.

(** ** The ticker field of the add dialog: debounced and explicit checks *)

Module TickerField.

(** The dialog with its ticker input: the watched value of the field,
    the pending [setTimeout] callbacks (the id of each with the ticker
    its closure captured, oldest first), the timer that the cleanup
    returned by the last run of the effect clears (none when that run
    returned no cleanup), the id the next [setTimeout] returns, and the
    component's state. A check that has started runs to its end before
    the next event is handled. *)
Record Dialog : Type := {
  tickerValue : string;
  timers : list (nat * string);
  cleanup : option nat;
  next_timer : nat;
  state : AddStockForm.State
}.

(** [clearTimeout(i)] *)
Definition clearTimeout (i : nat) (pending : list (nat * string)) : list (nat * string) :=
  List.filter (fun t => negb (Nat.eqb (fst t) i)) pending.

(** The ticker that is checked when the next timer elapses. *)
Definition timeout (d : Dialog) : option string :=
  match timers d with
  | [] => None
  | (_, tk) :: _ => Some tk
  end.

(** React runs the cleanup of the previous run of the effect. *)
Definition runCleanup (d : Dialog) : Dialog :=
  match cleanup d with
  | Some i =>
      {| tickerValue := tickerValue d;
         timers := clearTimeout i (timers d);
         cleanup := None;
         next_timer := next_timer d;
         state := state d |}
  | None => d
  end.

(** The field shows [v]. *)
Definition watch (v : string) (d : Dialog) : Dialog :=
  {| tickerValue := v;
     timers := timers d;
     cleanup := cleanup d;
     next_timer := next_timer d;
     state := state d |}.

(** No timer is pending but the one the next cleanup clears. *)
Definition settled (d : Dialog) : bool :=
  match timers d, cleanup d with
  | [], _ => true
  | [(i, _)], Some j => Nat.eqb i j
  | _, _ => false
  end.

Section Handlers.
Local Open Scope async_scope.

Variable toUpperCase : string -> string.
Variable POLYGON_API_KEY : option string.
Variable network : nat -> string -> response.

(** The body of the [useEffect] that watches the ticker. *)
Definition tickerEffect (d : Dialog) : Async Dialog :=
  if (0 <? String.length (tickerValue d))%nat then
    ret {| tickerValue := tickerValue d;
           timers := timers d ++ [(next_timer d, tickerValue d)];
           cleanup := Some (next_timer d);
           next_timer := S (next_timer d);
           state := state d |}
  else
    await st := AddStockForm.performTickerCheck toUpperCase POLYGON_API_KEY network
                  "" (state d) in
    ret {| tickerValue := tickerValue d;
           timers := timers d;
           cleanup := None;
           next_timer := next_timer d;
           state := st |}.

(** The field changes to [v]: the previous run of the effect is cleaned
    up and the effect runs again. Nothing happens when the value is the
    one already watched. *)
Definition changeTicker (v : string) (d : Dialog) : Async Dialog :=
  if String.eqb v (tickerValue d) then ret d
  else tickerEffect (watch v (runCleanup d)).

(** A second has passed since the oldest pending timer was set: its
    callback runs. *)
Definition timerFires (d : Dialog) : Async Dialog :=
  match timers d with
  | (_, tk) :: rest =>
      await st := AddStockForm.performTickerCheck toUpperCase POLYGON_API_KEY network
                    tk (state d) in
      ret {| tickerValue := tickerValue d;
             timers := rest;
             cleanup := cleanup d;
             next_timer := next_timer d;
             state := st |}
  | [] => ret d
  end.

(** [handleCheckClick] *)
Definition handleCheckClick (d : Dialog) : Async Dialog :=
  if String.eqb (tickerValue d) "" then
    ret {| tickerValue := tickerValue d;
           timers := timers d;
           cleanup := cleanup d;
           next_timer := next_timer d;
           state :=
             AddStockForm.with_ticker_error (Some "Please enter a ticker first.")
               (state d) |}
  else
    await st := AddStockForm.performTickerCheck toUpperCase POLYGON_API_KEY network
                  (tickerValue d) (state d) in
    ret {| tickerValue := tickerValue d;
           timers := timers d;
           cleanup := cleanup d;
           next_timer := next_timer d;
           state := st |}.

(** A burst of changes of the field, none of them followed by the
    timer. *)
Fixpoint typeAll (vs : list string) (d : Dialog) : Async Dialog :=
  match vs with
  | [] => ret d
  | v :: rest =>
      await d' := changeTicker v d in
      typeAll rest d'
  end.

End Handlers.

End TickerField.

(** ** A session in the edit dialog *)

Module EditSession.

(** What the user does to a field of the edit form; the numbers are what
    [parseFloat] returned for the text typed. *)
Inductive Change : Type :=
| ChangeQuantity (parsed : number)
| ChangePrice (parsed : number)
| ChangeDate (text : string).

Definition change (data : EditHoldingForm.Data) (c : Change) : EditHoldingForm.Data :=
  match c with
  | ChangeQuantity parsed => EditHoldingForm.onQuantityChange parsed data
  | ChangePrice parsed => EditHoldingForm.onPriceChange parsed data
  | ChangeDate text => EditHoldingForm.onDateChange text data
  end.

(** The dialog is opened on [holding], the changes are made in order and
    the form is saved. *)
Definition editAndSave (update_error : option string) (holding : PortfolioItem number)
    (changes : list Change) : Async unit :=
  EditHoldingForm.handleSave update_error holding
    (fold_left change changes (EditHoldingForm.initial holding)).

End EditSession.


(** The requests a lookup of the ticker [tk] sends: one, unless the
    ticker is empty or the API key is missing. *)
Definition lookup_requests (POLYGON_API_KEY : option string) (tk : string) : list string :=
  if String.eqb tk "" || key_missing POLYGON_API_KEY then []
  else [tickerDetailsUrl POLYGON_API_KEY tk].

(** ** Submitting the add form, step by step *)

(** The dialog after a successful insert: closed and reset. *)
Definition closed_dialog (st : AddStockForm.State) : AddStockForm.State :=
  {| AddStockForm.open := false;
     AddStockForm.tickerValidated := None;
     AddStockForm.companyName := JNull;
     AddStockForm.isChecking := AddStockForm.isChecking st;
     AddStockForm.isSubmitting := AddStockForm.isSubmitting st;
     AddStockForm.tickerError := None |}.

(** [usdPrice] in [onSubmit], with the log once it has been computed. *)
Definition submitted_price (POLYGON_API_KEY : option string)
    (TextToNumber : json -> number) (network : nat -> string -> response)
    (values : AddStockForm.Values) (log : list event) : number * list event :=
  if String.eqb (AddStockForm.purchase_currency values) "EUR"
  then (JsNumber.mul (AddStockForm.purchase_price values)
          (fst (fetchEuroToUsdRate POLYGON_API_KEY TextToNumber network log)),
        snd (fetchEuroToUsdRate POLYGON_API_KEY TextToNumber network log))
  else (AddStockForm.purchase_price values, log).

(** ** Numbers in canonical form *)

(** Every JavaScript number is a binary64 value in canonical form; the
    type [number] also holds finite values written with another
    mantissa and exponent, which are no one's representation. *)
Definition canonical (x : number) : bool := valid_binary JsNumber.prec JsNumber.emax x.


(** ** Shapes of the API's answers *)

(** The answers on which the lookup succeeds. *)
Definition exact_match (toUpperCase : string -> string) (ticker : string) (data : json)
    (rfields : list (string * json)) : Prop :=
  exists fields,
    data = JObj fields
    /\ Js.own "status" fields = Val (JStr "OK")
    /\ Js.own "results" fields = Val (JObj rfields)
    /\ Js.own "ticker" rfields = Val (JStr (toUpperCase ticker)).

(** The shape of a previous-close answer carrying the close [c]: an
    object whose [results] is an array starting with an object whose
    [c] is the number [c]. *)
Definition carries_close (data : json) (c : number) : Prop :=
  exists fields rfields rest,
    data = JObj fields
    /\ Js.own "results" fields = Val (JArr (JObj rfields :: rest))
    /\ Js.own "c" rfields = Val (JNum c).

(** The names under which an assignment [o[name] = number] stores its
    value in an object that started empty: all but [__proto__]. *)
Definition storable (tickers : list string) : list string :=
  List.filter (fun t => negb (String.eqb t "__proto__")) tickers.

(** ** Sample data *)

Module Sample.

(** The holding of the specification's scenario: ten AAPL shares bought
    at 100. *)
Definition aapl : PortfolioItem number :=
  {| id := "h1"; ticker := "AAPL";
     quantity := JsNumber.of_Z 10;
     purchase_price := JsNumber.of_Z 100;
     purchase_date := "2024-01-02" |}.

Definition aapl_prices : gmap string number := {[ "AAPL" := JsNumber.of_Z 150 ]}.

Definition aapl_row : DisplayItem number :=
  {| item := aapl;
     current_price := Number (JsNumber.of_Z 150);
     market_value := JsNumber.of_Z 1500;
     cost_basis := JsNumber.of_Z 1000;
     gain_loss := JsNumber.of_Z 500;
     gain_loss_percent := JsNumber.of_Z 50 |}.


(** One share of A and five of B, both bought and now priced at 1. *)
Definition one_and_five : list (PortfolioItem number) :=
  [ {| id := "h3"; ticker := "A"; quantity := JsNumber.of_Z 1;
       purchase_price := JsNumber.of_Z 1; purchase_date := "2024-01-02" |};
    {| id := "h4"; ticker := "B"; quantity := JsNumber.of_Z 5;
       purchase_price := JsNumber.of_Z 1; purchase_date := "2024-01-02" |} ].

Definition unit_prices : gmap string number :=
  {[ "A" := JsNumber.of_Z 1; "B" := JsNumber.of_Z 1 ]}.

(** The literals [0.1] and [1.1]. *)
Definition lit_0_1 : number := Eval vm_compute in JsNumber.div (JsNumber.of_Z 1) (JsNumber.of_Z 10).
Definition lit_1_1 : number := Eval vm_compute in JsNumber.div (JsNumber.of_Z 11) (JsNumber.of_Z 10).

(** The scenario's row over the rationals. *)
Definition aapl_exact : DisplayItem Q :=
  {| item := {| id := "h1"; ticker := "AAPL"; quantity := 10%Q;
                purchase_price := 100%Q; purchase_date := "2024-01-02" |};
     current_price := Number 150%Q;
     market_value := 1500%Q;
     cost_basis := 1000%Q;
     gain_loss := 500%Q;
     gain_loss_percent := 50%Q |}.



Definition proto_holding : PortfolioItem number :=
  {| id := "h6"; ticker := "__proto__";
     quantity := JsNumber.of_Z 10;
     purchase_price := JsNumber.of_Z 100;
     purchase_date := "2024-01-02" |}.

(** One share bought at [1e308] and now priced at [1.5e308]. *)
Definition huge : PortfolioItem number :=
  {| id := "h7"; ticker := "H";
     quantity := JsNumber.of_Z 1;
     purchase_price := JsNumber.of_Z (10 ^ 308);
     purchase_date := "2024-01-02" |}.

Definition huge_prices : gmap string number := {[ "H" := JsNumber.of_Z (15 * 10 ^ 307) ]}.

(** Two holdings of one share each, bought and now priced at [1e308]. *)
Definition two_huge : list (PortfolioItem number) :=
  [ {| id := "h8"; ticker := "H"; quantity := JsNumber.of_Z 1;
       purchase_price := JsNumber.of_Z (10 ^ 308); purchase_date := "2024-01-02" |};
    {| id := "h9"; ticker := "H"; quantity := JsNumber.of_Z 1;
       purchase_price := JsNumber.of_Z (10 ^ 308); purchase_date := "2024-01-02" |} ].

Definition two_huge_prices : gmap string number := {[ "H" := JsNumber.of_Z (10 ^ 308) ]}.

(** Three holdings over two tickers: B, A and B again. *)
Definition b_a_b : list (PortfolioItem number) :=
  [ {| id := "h10"; ticker := "B"; quantity := JsNumber.of_Z 1;
       purchase_price := JsNumber.of_Z 1; purchase_date := "2024-01-02" |};
    {| id := "h11"; ticker := "A"; quantity := JsNumber.of_Z 2;
       purchase_price := JsNumber.of_Z 1; purchase_date := "2024-01-02" |};
    {| id := "h12"; ticker := "B"; quantity := JsNumber.of_Z 3;
       purchase_price := JsNumber.of_Z 1; purchase_date := "2024-01-02" |} ].

(** The last of them once the prices 150 for B and 20 for A are
    known. *)
Definition second_b_row : DisplayItem number :=
  {| item := {| id := "h12"; ticker := "B"; quantity := JsNumber.of_Z 3;
                purchase_price := JsNumber.of_Z 1; purchase_date := "2024-01-02" |};
     current_price := Number (JsNumber.of_Z 150);
     market_value := JsNumber.of_Z 450;
     cost_basis := JsNumber.of_Z 3;
     gain_loss := JsNumber.of_Z 447;
     gain_loss_percent := JsNumber.of_Z 14900 |}.

(** What [toUpperCase] does to text written in ASCII: the letters a to
    z become A to Z and the other characters stay. *)
Definition upper_char (c : ascii) : ascii :=
  let n := nat_of_ascii c in
  if ((97 <=? n) && (n <=? 122))%nat then ascii_of_nat (n - 32) else c.

Fixpoint upper (s : string) : string :=
  match s with
  | EmptyString => EmptyString
  | String c rest => String (upper_char c) (upper rest)
  end.

(** A configured key, and the ticker-details answer for Apple. *)
Definition key : option string := Some "k".

Definition aapl_details : json :=
  JObj [ ("status", JStr "OK");
         ("results", JObj [ ("ticker", JStr "AAPL"); ("name", JStr "Apple Inc.") ]) ].

(** A previous-close answer with close [c]. *)
Definition prev_close (c : number) : json :=
  JObj [ ("status", JStr "OK");
         ("results", JArr [ JObj [ ("c", JNum c) ] ]) ].

Definition always (r : response) : nat -> string -> response := fun _ _ => r.

(** The first request is answered with a close of 150 and the later
    ones with a close of 20. *)
Definition two_answers : nat -> string -> response :=
  fun n _ => if Nat.eqb n 0 then Json (prev_close (JsNumber.of_Z 150))
             else Json (prev_close (JsNumber.of_Z 20)).

(** Text is never read as a number in the samples. *)
Definition no_text : json -> number := fun _ => S754_nan.

(** A filled-in add form: five AAPL shares at 100 EUR. *)
Definition euro_form : AddStockForm.Values :=
  {| AddStockForm.ticker := "aapl";
     AddStockForm.quantity := JsNumber.of_Z 5;
     AddStockForm.purchase_price := JsNumber.of_Z 100;
     AddStockForm.purchase_date := "2024-01-02";
     AddStockForm.purchase_currency := "EUR" |}.

(** The same form with no shares. *)
Definition empty_lot_form : AddStockForm.Values :=
  {| AddStockForm.ticker := "aapl";
     AddStockForm.quantity := JsNumber.zero;
     AddStockForm.purchase_price := JsNumber.of_Z 100;
     AddStockForm.purchase_date := "2024-01-02";
     AddStockForm.purchase_currency := "EUR" |}.

(** The dialog once the ticker has been verified, and before. *)
Definition verified : AddStockForm.State :=
  {| AddStockForm.open := true;
     AddStockForm.tickerValidated := Some true;
     AddStockForm.companyName := JStr "Apple Inc.";
     AddStockForm.isChecking := false;
     AddStockForm.isSubmitting := false;
     AddStockForm.tickerError := None |}.

Definition unchecked : AddStockForm.State :=
  {| AddStockForm.open := true;
     AddStockForm.tickerValidated := None;
     AddStockForm.companyName := JNull;
     AddStockForm.isChecking := false;
     AddStockForm.isSubmitting := false;
     AddStockForm.tickerError := None |}.

(** The literal [-5]. *)
Definition minus_five : number := Eval vm_compute in SFopp (JsNumber.of_Z 5).

End Sample.

(** ** Sample dialogs *)

Module Scenario.

(** The add dialog as it opens, with a check of "aapl" pending, and once
    "aapl" has been verified. *)
Definition fresh : TickerField.Dialog :=
  {| TickerField.tickerValue := "";
     TickerField.timers := [];
     TickerField.cleanup := None;
     TickerField.next_timer := 0;
     TickerField.state := Sample.unchecked |}.

Definition pending_aapl : TickerField.Dialog :=
  {| TickerField.tickerValue := "aapl";
     TickerField.timers := [(3%nat, "aapl")];
     TickerField.cleanup := Some 3%nat;
     TickerField.next_timer := 4;
     TickerField.state := Sample.unchecked |}.

Definition verified_aapl : TickerField.Dialog :=
  {| TickerField.tickerValue := "aapl";
     TickerField.timers := [];
     TickerField.cleanup := Some 3%nat;
     TickerField.next_timer := 4;
     TickerField.state := Sample.verified |}.

(** A form for a ticker that was never looked up. *)
Definition unknown_form : AddStockForm.Values :=
  {| AddStockForm.ticker := "zzzz";
     AddStockForm.quantity := JsNumber.of_Z 5;
     AddStockForm.purchase_price := JsNumber.of_Z 100;
     AddStockForm.purchase_date := "2024-01-02";
     AddStockForm.purchase_currency := "USD" |}.

(** What the schema makes of it. *)
Definition unknown_parsed : AddStockForm.Values :=
  {| AddStockForm.ticker := "ZZZZ";
     AddStockForm.quantity := JsNumber.of_Z 5;
     AddStockForm.purchase_price := JsNumber.of_Z 100;
     AddStockForm.purchase_date := "2024-01-02";
     AddStockForm.purchase_currency := "USD" |}.

(** A previous-close answer with close 1.1 whose status is not "OK". *)
Definition delayed_close : json :=
  JObj [ ("status", JStr "DELAYED");
         ("results", JArr [ JObj [ ("c", JNum Sample.lit_1_1) ] ]) ].

End Scenario.

(** * Properties *)

(** ** Facts about binary64 used below *)



Lemma mul_zero_finite (r : number) :
  JsNumber.is_finite r = true ->
  exists s, JsNumber.mul JsNumber.zero r = S754_zero s.
Proof.
  destruct r as [s | s | | s m e]; simpl; try discriminate; intros _.
  - now exists s.
  - now exists s.
Qed.

(** ** Valuation *)

Lemma fold_left_add_map {N A : Type} (add : N -> N -> N) (f : A -> N) (l : list A) (a : N) :
  fold_left (fun sum it => add sum (f it)) l a = fold_left add (map f l) a.
Proof. revert a. induction l as [| x l IH]; intros a; simpl; [reflexivity | apply IH]. Qed.

Lemma price_or_zero_own (prices : gmap string number) (t : string) (p : number) :
  prices !! t = Some p ->
  price_or_zero prices t = Number (if JsNumber.truthy p then p else JsNumber.zero).
Proof. intros Hp. unfold price_or_zero, PlainObject.get. now rewrite Hp. Qed.




(** *** Totals *)

Lemma zero_is_zero (s : bool) : JsNumber.strict_eq (S754_zero s) JsNumber.zero = true.
Proof. reflexivity. Qed.

Lemma fold_left_Qplus_compat (l : list Q) (u v : Q) :
  (u == v)%Q -> (fold_left Qplus l u == fold_left Qplus l v)%Q.
Proof.
  revert u v. induction l as [| y l IH]; intros u v E; simpl.
  - exact E.
  - apply IH. apply Qplus_comp; [exact E | apply Qeq_refl].
Qed.

(** Over the rationals, converting the sum and summing the converted
    rows agree. *)
Lemma exact_sum_converted (f : DisplayItem Q -> Q) (rows : list (DisplayItem Q)) (r a : Q) :
  (fold_left Qplus (map (fun it => f it * r) rows) (a * r)
   == fold_left (fun sum it => sum + f it) rows a * r)%Q.
Proof.
  revert a. induction rows as [| x rows IH]; intros a; simpl.
  - apply Qeq_refl.
  - eapply Qeq_trans; [| apply IH]. apply fold_left_Qplus_compat. ring.
Qed.

Lemma exact_total_is_sum_converted (f : DisplayItem Q -> Q) (rows : list (DisplayItem Q)) (r : Q) :
  (sum_converted f rows r == fold_left (fun sum it => sum + f it) rows 0 * r)%Q.
Proof.
  unfold sum_converted, sum_from_zero; simpl.
  eapply Qeq_trans; [| apply exact_sum_converted].
  apply fold_left_Qplus_compat. ring.
Qed.

(** C2 (as amended): for every rate, the total market value and cost
    basis are the left-to-right sums of the rows' values multiplied by
    the exchange rate, the total gain/loss is their difference, and the
    total percent is 0 when the converted cost basis is 0 and
    gain/loss / cost basis * 100 of the converted totals otherwise; for
    the empty list and a finite rate the four totals are zero; and when
    the same formulas are computed in exact arithmetic, converting the
    sum equals summing the converted rows. *)
Theorem C2_totals :
  (forall (rows : list (DisplayItem number)) (rate : number),
      totalMarketValue rows rate
      = JsNumber.mul (sum_from_zero (map market_value rows)) rate
      /\ totalCostBasis rows rate
         = JsNumber.mul (sum_from_zero (map cost_basis rows)) rate
      /\ totalGainLoss rows rate
         = JsNumber.sub (totalMarketValue rows rate) (totalCostBasis rows rate)
      /\ totalGainLossPercent rows rate
         = (if JsNumber.strict_eq (totalCostBasis rows rate) JsNumber.zero
            then JsNumber.zero
            else JsNumber.mul
                   (JsNumber.div (totalGainLoss rows rate) (totalCostBasis rows rate))
                   JsNumber.hundred))
  /\ (forall rate : number,
         JsNumber.is_finite rate = true ->
         JsNumber.strict_eq (totalMarketValue [] rate) JsNumber.zero = true
         /\ JsNumber.strict_eq (totalCostBasis [] rate) JsNumber.zero = true
         /\ JsNumber.strict_eq (totalGainLoss [] rate) JsNumber.zero = true
         /\ totalGainLossPercent [] rate = JsNumber.zero)
  /\ (forall (rows : list (DisplayItem Q)) (r : Q),
         (totalMarketValue rows r == sum_converted market_value rows r)%Q
         /\ (totalCostBasis rows r == sum_converted cost_basis rows r)%Q).
Proof.
  split; [| split].
  - intros rows rate. split; [| split; [| split]].
    + unfold totalMarketValue, sum_from_zero; simpl.
      now rewrite (fold_left_add_map JsNumber.add market_value).
    + unfold totalCostBasis, sum_from_zero; simpl.
      now rewrite (fold_left_add_map JsNumber.add cost_basis).
    + reflexivity.
    + reflexivity.
  - intros rate Hfin.
    destruct (mul_zero_finite rate Hfin) as [s Hs].
    unfold totalGainLossPercent, totalGainLoss, totalMarketValue, totalCostBasis.
    cbn [fold_left num_mul num_zero num_sub num_is_zero binary64_arith].
    rewrite Hs. split; [| split; [| split]]; try apply zero_is_zero.
    + now destruct s.
    + reflexivity.
  - intros rows r. unfold totalMarketValue, totalCostBasis; simpl.
    split; apply Qeq_sym; apply exact_total_is_sum_converted.
Qed.

(** The empty portfolio shown in a currency whose rate is 1.1. *)
Lemma C2_totals_witness :
  JsNumber.is_finite Sample.lit_1_1 = true
  /\ totalGainLossPercent (@nil (DisplayItem number)) Sample.lit_1_1 = JsNumber.zero.
Proof.
  split; [reflexivity |].
  apply (proj1 (proj2 C2_totals) Sample.lit_1_1). reflexivity.
Defined.

(** C2, where the claim fails.
    - In binary64, converting the sum is not summing the converted
      rows. With market values 1 and 5 and rate 0.1, [(1 + 5) * 0.1] is
      0.6000000000000001 while [1 * 0.1 + 5 * 0.1] is 0.6. With two
      market values of 1e308 and rate 0.1 the sum overflows and the
      total is Infinity, while the converted rows add up to 2e307.
    - The totals of the empty list are not 0 at every rate: at the rate
      Infinity the total market value [0 * Infinity] is NaN, and so is
      the total percentage. *)
Lemma C2_counterexamples :
  (map market_value (displayHoldings Sample.one_and_five Sample.unit_prices)
   = [JsNumber.of_Z 1; JsNumber.of_Z 5]
   /\ JsNumber.strict_eq
        (totalMarketValue (displayHoldings Sample.one_and_five Sample.unit_prices)
                          Sample.lit_0_1)
        (sum_converted market_value
                       (displayHoldings Sample.one_and_five Sample.unit_prices)
                       Sample.lit_0_1)
      = false
   /\ ~ (forall (rows : list (DisplayItem number)) (rate : number),
           totalMarketValue rows rate = sum_converted market_value rows rate))
  /\ (totalMarketValue (displayHoldings Sample.two_huge Sample.two_huge_prices)
                       Sample.lit_0_1
      = S754_infinity false
      /\ JsNumber.is_finite
           (sum_converted market_value
                          (displayHoldings Sample.two_huge Sample.two_huge_prices)
                          Sample.lit_0_1)
         = true)
  /\ (totalMarketValue (@nil (DisplayItem number)) (S754_infinity false) = S754_nan
      /\ totalGainLossPercent (@nil (DisplayItem number)) (S754_infinity false) = S754_nan
      /\ ~ (forall rate : number,
              JsNumber.strict_eq (totalMarketValue (@nil (DisplayItem number)) rate)
                                 JsNumber.zero
              = true)).
Proof.
  split; [| split].
  - split; [vm_compute; reflexivity |].
    split; [vm_compute; reflexivity |].
    intros Hall.
    specialize (Hall (displayHoldings Sample.one_and_five Sample.unit_prices) Sample.lit_0_1).
    vm_compute in Hall. discriminate.
  - split; vm_compute; reflexivity.
  - split; [vm_compute; reflexivity |].
    split; [vm_compute; reflexivity |].
    intros Hall. specialize (Hall (S754_infinity false)).
    vm_compute in Hall. discriminate.
Qed.

(** *** Percentages and the display currency *)

Lemma exact_percent_rate_free (rows : list (DisplayItem Q)) (r : Q) :
  ~ (r == 0)%Q ->
  (totalGainLossPercent rows r == totalGainLossPercent rows 1)%Q.
Proof.
  intros Hr.
  unfold totalGainLossPercent, totalGainLoss, totalMarketValue, totalCostBasis; simpl.
  set (mv := fold_left (fun sum it => (sum + market_value it)%Q) rows 0%Q).
  set (cb := fold_left (fun sum it => (sum + cost_basis it)%Q) rows 0%Q).
  destruct (Qeq_bool (cb * r) 0) eqn:E1; destruct (Qeq_bool (cb * 1) 0) eqn:E2.
  - apply Qeq_refl.
  - apply Qeq_bool_iff in E1. apply Qeq_bool_neq in E2.
    exfalso. apply E2.
    destruct (Qmult_integral _ _ E1) as [Hc | Hc]; [| contradiction].
    eapply Qeq_trans; [apply Qmult_comp; [exact Hc | apply Qeq_refl] | ring].
  - apply Qeq_bool_neq in E1. apply Qeq_bool_iff in E2.
    exfalso. apply E1.
    assert (Hc : (cb == 0)%Q) by (eapply Qeq_trans; [| exact E2]; ring).
    eapply Qeq_trans; [apply Qmult_comp; [exact Hc | apply Qeq_refl] | ring].
  - apply Qeq_bool_neq in E1. apply Qeq_bool_neq in E2.
    assert (Hc : ~ (cb == 0)%Q).
    { intros Hc. apply E2.
      eapply Qeq_trans; [apply Qmult_comp; [exact Hc | apply Qeq_refl] | ring]. }
    field. split; assumption.
Qed.

(** C9 (as amended): a row's percentage cell is the stored
    [gain_loss_percent], whatever the exchange rate, while the amounts
    next to it are multiplied by the rate; and when the totals' formulas
    are computed in exact arithmetic, the total percentage at any
    non-zero rate equals the one at rate 1. *)
Theorem C9_percentages_and_rate :
  (forall (prices : gmap string number) (it : PortfolioItem number) (rate : number),
      cell_gain_loss_percent (rowCells rate (displayItem prices it))
      = gain_loss_percent (displayItem prices it)
      /\ cell_gain_loss (rowCells rate (displayItem prices it))
         = JsNumber.mul (gain_loss (displayItem prices it)) rate
      /\ cell_market_value (rowCells rate (displayItem prices it))
         = JsNumber.mul (market_value (displayItem prices it)) rate)
  /\ (forall (rows : list (DisplayItem Q)) (r : Q),
         ~ (r == 0)%Q ->
         (totalGainLossPercent rows r == totalGainLossPercent rows 1)%Q).
Proof.
  split.
  - intros prices it rate. repeat split; reflexivity.
  - intros rows r Hr. now apply exact_percent_rate_free.
Qed.

(** The scenario's portfolio at rate 11/10. *)
Lemma C9_percentages_and_rate_witness :
  ~ (11 # 10 == 0)%Q
  /\ (totalGainLossPercent [Sample.aapl_exact] (11 # 10)
      == totalGainLossPercent [Sample.aapl_exact] 1)%Q.
Proof.
  assert (H : ~ (11 # 10 == 0)%Q) by (intros E; discriminate E).
  split; [exact H |].
  apply (proj2 C9_percentages_and_rate [Sample.aapl_exact] (11 # 10) H).
Defined.

(** C9, where the claim fails: in binary64 the rate does not cancel.
    - One share bought at 1e308 and now priced at 1.5e308: the total
      percentage is 50 at rate 1; at rate 10 both converted totals
      overflow to Infinity, their difference is NaN and so is the
      percentage.
    - Without overflow, for the AAPL scenario the total percentage is 50
      at rate 1 and 50.00000000000002 at rate 1.1. *)
Lemma C9_rate_does_not_cancel :
  (JsNumber.lt JsNumber.zero (JsNumber.of_Z 10) = true
   /\ totalGainLossPercent [displayItem Sample.huge_prices Sample.huge] JsNumber.one
      = JsNumber.of_Z 50
   /\ totalCostBasis [displayItem Sample.huge_prices Sample.huge] (JsNumber.of_Z 10)
      = S754_infinity false
   /\ totalGainLoss [displayItem Sample.huge_prices Sample.huge] (JsNumber.of_Z 10)
      = S754_nan
   /\ totalGainLossPercent [displayItem Sample.huge_prices Sample.huge] (JsNumber.of_Z 10)
      = S754_nan)
  /\ (JsNumber.lt JsNumber.zero Sample.lit_1_1 = true
      /\ displayHoldings [Sample.aapl] Sample.aapl_prices = [Sample.aapl_row]
      /\ totalGainLossPercent [Sample.aapl_row] JsNumber.one = JsNumber.of_Z 50
      /\ JsNumber.strict_eq (totalGainLossPercent [Sample.aapl_row] Sample.lit_1_1)
                            (totalGainLossPercent [Sample.aapl_row] JsNumber.one)
         = false)
  /\ ~ (forall (rows : list (DisplayItem number)) (rate : number),
          JsNumber.lt JsNumber.zero rate = true ->
          totalGainLossPercent rows rate = totalGainLossPercent rows JsNumber.one).
Proof.
  split; [| split].
  - split; [reflexivity |].
    split; [vm_compute; reflexivity |].
    split; [vm_compute; reflexivity |].
    split; vm_compute; reflexivity.
  - split; [reflexivity |].
    split; [vm_compute; reflexivity |].
    split; [vm_compute; reflexivity |].
    vm_compute; reflexivity.
  - intros Hall.
    specialize (Hall [displayItem Sample.huge_prices Sample.huge] (JsNumber.of_Z 10) eq_refl).
    vm_compute in Hall. discriminate.
Qed.

(** ** An array's [length] is positive when the array is not empty *)

Lemma digits2_pos_lower (p : positive) : 2 ^ (Zpos (digits2_pos p) - 1) <= Zpos p.
Proof.
  induction p as [p IH | p IH |]; simpl digits2_pos.
  - rewrite Pos2Z.inj_succ.
    replace (Z.succ (Zpos (digits2_pos p)) - 1) with (Z.succ (Zpos (digits2_pos p) - 1)) by lia.
    rewrite Z.pow_succ_r by lia. lia.
  - rewrite Pos2Z.inj_succ.
    replace (Z.succ (Zpos (digits2_pos p)) - 1) with (Z.succ (Zpos (digits2_pos p) - 1)) by lia.
    rewrite Z.pow_succ_r by lia. lia.
  - simpl. lia.
Qed.

Lemma shr_1_m (mrs : shr_record) :
  0 <= shr_m mrs -> shr_m (shr_1 mrs) = Z.div2 (shr_m mrs).
Proof.
  destruct mrs as [m r s]; simpl. intros Hm.
  destruct m as [| [p | p |] | p]; simpl; try reflexivity; lia.
Qed.

(** Shifting a mantissa right by [k] places. *)
Lemma iter_shr_1_m (k : positive) : forall mrs,
  0 <= shr_m mrs ->
  shr_m (SpecFloat.iter_pos shr_1 k mrs) = Z.shiftr (shr_m mrs) (Zpos k).
Proof.
  induction k as [k IH | k IH |]; intros mrs Hm; simpl SpecFloat.iter_pos.
  - assert (H1 : 0 <= shr_m (shr_1 mrs)).
    { rewrite shr_1_m by assumption. rewrite Z.div2_spec.
      apply Z.shiftr_nonneg. assumption. }
    assert (H2 : 0 <= shr_m (SpecFloat.iter_pos shr_1 k (shr_1 mrs))).
    { rewrite IH by assumption. apply Z.shiftr_nonneg. assumption. }
    rewrite IH by assumption. rewrite IH by assumption.
    rewrite shr_1_m by assumption. rewrite Z.div2_spec.
    rewrite !Z.shiftr_shiftr by lia. f_equal. lia.
  - assert (H2 : 0 <= shr_m (SpecFloat.iter_pos shr_1 k mrs)).
    { rewrite IH by assumption. apply Z.shiftr_nonneg. assumption. }
    rewrite IH by assumption. rewrite IH by assumption.
    rewrite !Z.shiftr_shiftr by lia. f_equal. lia.
  - rewrite shr_1_m by assumption. now rewrite Z.div2_spec.
Qed.

(** Rounding to 53 bits keeps a positive mantissa positive. *)
Lemma shr_fexp_positive (m e : Z) (l : location) :
  1 <= m -> -52 <= e ->
  1 <= shr_m (fst (shr_fexp JsNumber.prec JsNumber.emax m e l))
  /\ -52 <= snd (shr_fexp JsNumber.prec JsNumber.emax m e l).
Proof.
  intros Hm He. unfold shr_fexp, shr.
  destruct m as [| p | p]; try lia.
  simpl Zdigits2.
  pose proof (digits2_pos_lower p) as Hd.
  set (d := Zpos (digits2_pos p)) in *.
  assert (Hd1 : 1 <= d) by (unfold d; lia).
  unfold fexp, emin, JsNumber.prec, JsNumber.emax.
  destruct (Z.max (d + e - 53) (3 - 1024 - 53) - e) as [| n | n] eqn:En; simpl.
  - split; [destruct l as [| []]; simpl; lia | lia].
  - split; [| lia].
    rewrite iter_shr_1_m by (destruct l as [| []]; simpl; lia).
    assert (Hn : Zpos n <= d - 1) by lia.
    replace (shr_m (shr_record_of_loc (Zpos p) l)) with (Zpos p)
      by (destruct l as [| []]; reflexivity).
    rewrite Z.shiftr_div_pow2 by lia.
    apply Z.div_le_lower_bound; [apply Z.pow_pos_nonneg; lia |].
    rewrite Z.mul_1_r.
    eapply Z.le_trans; [| exact Hd].
    apply Z.pow_le_mono_r; lia.
  - split; [destruct l as [| []]; simpl; lia | lia].
Qed.

Lemma binary_round_aux_positive (m e : Z) (l : location) :
  1 <= m -> -52 <= e ->
  JsNumber.lt JsNumber.zero
    (binary_round_aux JsNumber.prec JsNumber.emax false m e l) = true.
Proof.
  intros Hm He. unfold binary_round_aux.
  pose proof (shr_fexp_positive m e l Hm He) as [H1 H2].
  destruct (shr_fexp JsNumber.prec JsNumber.emax m e l) as [mrs' e'].
  simpl in H1, H2.
  assert (Hr : 1 <= round_nearest_even (shr_m mrs') (loc_of_shr_record mrs')).
  { unfold round_nearest_even.
    destruct (loc_of_shr_record mrs') as [| []]; try lia.
    destruct (Z.even (shr_m mrs')); lia. }
  pose proof (shr_fexp_positive _ e' loc_Exact Hr H2) as [H3 H4].
  destruct (shr_fexp JsNumber.prec JsNumber.emax _ e' loc_Exact) as [mrs'' e''].
  simpl in H3, H4.
  destruct (shr_m mrs'') as [| q | q]; try lia.
  destruct (e'' <=? JsNumber.emax - JsNumber.prec); reflexivity.
Qed.

Lemma of_Z_positive (p : positive) :
  JsNumber.lt JsNumber.zero (JsNumber.of_Z (Zpos p)) = true.
Proof.
  unfold JsNumber.of_Z, binary_normalize, binary_round, shl_align.
  pose proof (digits2_pos_lower p) as Hd.
  set (d := Zpos (digits2_pos p)) in *.
  assert (Hd1 : 1 <= d) by (unfold d; lia).
  unfold fexp, emin, JsNumber.prec, JsNumber.emax.
  destruct (Z.max (d + 0 - 53) (3 - 1024 - 53) - 0) as [| n | n] eqn:En;
    apply binary_round_aux_positive; lia.
Qed.

Lemma nonempty_length_positive (T : json -> number) (n : nat) :
  Js.positive T (Js.length_value (S n)) = true.
Proof.
  unfold Js.positive, Js.length_value, Js.to_number.
  rewrite Nat2Z.inj_succ.
  destruct (Z.succ (Z.of_nat n)) as [| p | p] eqn:E; try lia.
  apply of_Z_positive.
Qed.

Lemma empty_length_not_positive (T : json -> number) :
  Js.positive T (Js.length_value 0) = false.
Proof. reflexivity. Qed.

(** ** Ticker lookup *)

Lemma is_string_true (v : value) (s : string) :
  Js.is_string v s = true -> v = Val (JStr s).
Proof.
  destruct v as [| [ | | | t | | ]]; simpl; try discriminate.
  intros E. apply String.eqb_eq in E. now subst.
Qed.

Lemma is_string_refl (s : string) : Js.is_string (Val (JStr s)) s = true.
Proof. simpl. apply String.eqb_refl. Qed.

Lemma or_else_truthy (v : value) (d : json) :
  Js.truthy v = true -> Val (Js.or_else v d) = v.
Proof. destruct v as [| j]; simpl; [discriminate |]. now intros ->. Qed.

Lemma or_else_falsy (v : value) (d : json) :
  Js.truthy v = false -> Js.or_else v d = d.
Proof. destruct v as [| j]; simpl; [reflexivity |]. now intros ->. Qed.

Lemma or_else_is_truthy (v : value) (d : json) :
  Js.truthy (Val d) = true -> Js.truthy (Val (Js.or_else v d)) = true.
Proof.
  intros Hd. destruct (Js.truthy v) eqn:E.
  - now rewrite or_else_truthy.
  - now rewrite or_else_falsy.
Qed.

Lemma or_else_not_null (v : value) (s : string) : Js.or_else v (JStr s) <> JNull.
Proof.
  destruct (Js.truthy v) eqn:E.
  - intros Hn. pose proof (or_else_truthy v (JStr s) E) as Hv.
    rewrite Hn in Hv. rewrite <- Hv in E. discriminate E.
  - rewrite (or_else_falsy v (JStr s) E). discriminate.
Qed.

Section TickerLookup.
Variable toUpperCase : string -> string.
Variable POLYGON_API_KEY : option string.
Variable network : nat -> string -> response.

Lemma ticker_details_found (ticker : string) (data : json) (rfields : list (string * json)) :
  exact_match toUpperCase ticker data rfields ->
  ticker_details toUpperCase ticker data
  = Normal {| exists_ := true;
              name := Js.or_else (Js.own "name" rfields) (JStr (toUpperCase ticker)) |}.
Proof.
  intros (fields & -> & Hs & Hr & Ht).
  unfold ticker_details; simpl. rewrite Hs; simpl. rewrite Hr; simpl.
  rewrite Ht. rewrite is_string_refl. reflexivity.
Qed.

Lemma ticker_details_inv (ticker : string) (data : json) (r : TickerCheck) :
  ticker_details toUpperCase ticker data = Normal r ->
  (exists_ r = true
   /\ exists rfields,
        exact_match toUpperCase ticker data rfields
        /\ name r = Js.or_else (Js.own "name" rfields) (JStr (toUpperCase ticker)))
  \/ r = not_found.
Proof.
  unfold ticker_details. intros H.
  destruct data as [ | b | n | s | elems | fields];
    try (cbn in H; first [discriminate | right; congruence]).
  cbn [Js.get cbind] in H.
  destruct (Js.is_string (Js.own "status" fields) "OK") eqn:Hok;
    [| right; congruence].
  apply is_string_true in Hok.
  destruct (Js.truthy (Js.own "results" fields)) eqn:Htr; [| right; congruence].
  destruct (Js.own "results" fields) as [| results] eqn:Hr; [discriminate Htr |].
  destruct results as [ | b | n | s | elems | rfields];
    try (cbn in H; first [discriminate | right; congruence]).
  cbn [Js.get cbind] in H.
  destruct (Js.is_string (Js.own "ticker" rfields) (toUpperCase ticker)) eqn:Hm;
    [| right; congruence].
  apply is_string_true in Hm.
  assert (Er : r = {| exists_ := true;
                      name := Js.or_else (Js.own "name" rfields)
                                         (JStr (toUpperCase ticker)) |})
    by congruence.
  subst r. left. split; [reflexivity |].
  exists rfields. split; [| reflexivity].
  exists fields. auto.
Qed.

Lemma checkTickerAndName_cases (ticker : string) (log : list event) :
  let r := fst (checkTickerAndName toUpperCase POLYGON_API_KEY network ticker log) in
  (exists_ r = true
   /\ ticker <> "" /\ key_missing POLYGON_API_KEY = false
   /\ exists data rfields,
        network (List.length log) (tickerDetailsUrl POLYGON_API_KEY ticker) = Json data
        /\ exact_match toUpperCase ticker data rfields
        /\ name r = Js.or_else (Js.own "name" rfields) (JStr (toUpperCase ticker)))
  \/ r = not_found.
Proof.
  unfold checkTickerAndName.
  destruct (String.eqb ticker "") eqn:Ht; simpl; [now right |].
  destruct (key_missing POLYGON_API_KEY) eqn:Hk; simpl; [now right |].
  unfold bind, fetch_json, ret; simpl.
  destruct (network (List.length log) (tickerDetailsUrl POLYGON_API_KEY ticker))
    as [| data] eqn:Hn; [now right |].
  destruct (ticker_details toUpperCase ticker data) as [r |] eqn:Hd; [| now right].
  destruct (ticker_details_inv _ _ _ Hd) as [[He (rfields & Hm & Hname)] | ->];
    [left | now right].
  apply String.eqb_neq in Ht.
  repeat split; try assumption.
  exists data, rfields. auto.
Qed.

Lemma checkTickerAndName_found (ticker : string) (log : list event)
      (data : json) (rfields : list (string * json)) :
  ticker <> "" -> key_missing POLYGON_API_KEY = false ->
  network (List.length log) (tickerDetailsUrl POLYGON_API_KEY ticker) = Json data ->
  exact_match toUpperCase ticker data rfields ->
  fst (checkTickerAndName toUpperCase POLYGON_API_KEY network ticker log)
  = {| exists_ := true;
       name := Js.or_else (Js.own "name" rfields) (JStr (toUpperCase ticker)) |}.
Proof.
  intros Ht Hk Hn Hm. unfold checkTickerAndName.
  apply String.eqb_neq in Ht. rewrite Ht, Hk; simpl.
  unfold bind, fetch_json, ret; simpl. rewrite Hn.
  now rewrite (ticker_details_found _ _ _ Hm).
Qed.

(** C4: whatever [toUpperCase] does to the symbol, the lookup answers
    [exists: true] exactly when the symbol is not empty, the API key is
    configured, the request succeeds and its answer has status "OK" and
    a results object whose ticker is the uppercased symbol; in every
    other case it answers [{exists: false, name: null}]. *)
Theorem C4_lookup_exists_iff (ticker : string) (log : list event) :
  let r := fst (checkTickerAndName toUpperCase POLYGON_API_KEY network ticker log) in
  (exists_ r = true <->
     ticker <> "" /\ key_missing POLYGON_API_KEY = false
     /\ exists fields rfields,
          network (List.length log) (tickerDetailsUrl POLYGON_API_KEY ticker)
          = Json (JObj fields)
          /\ Js.own "status" fields = Val (JStr "OK")
          /\ Js.own "results" fields = Val (JObj rfields)
          /\ Js.own "ticker" rfields = Val (JStr (toUpperCase ticker)))
  /\ (exists_ r = false -> r = not_found).
Proof.
  cbv zeta.
  pose proof (checkTickerAndName_cases ticker log) as Hcases. cbv zeta in Hcases.
  split; [split |].
  - intros He.
    destruct Hcases
      as [(_ & Ht & Hk & data & rfields & Hn & (fields & -> & Hs & Hr & Hm) & _) | Hnf].
    + repeat split; try assumption. exists fields, rfields. auto.
    + rewrite Hnf in He. discriminate He.
  - intros (Ht & Hk & fields & rfields & Hn & Hs & Hr & Hm).
    rewrite (checkTickerAndName_found ticker log (JObj fields) rfields Ht Hk Hn);
      [reflexivity |].
    exists fields. auto.
  - intros He.
    destruct Hcases as [(He' & _) | Hnf]; [congruence | exact Hnf].
Qed.

(** C10: when the lookup answers [exists: true], the name it returns is
    not [null]: it is the name the API gave when that is truthy, and
    the uppercased symbol otherwise, in particular when the name is
    missing or the empty string. The name is truthy as well, provided
    the uppercased symbol is not the empty string. *)
Theorem C10_verified_ticker_has_name (ticker : string) (log : list event) :
  let r := fst (checkTickerAndName toUpperCase POLYGON_API_KEY network ticker log) in
  exists_ r = true ->
  name r <> JNull
  /\ (toUpperCase ticker <> "" -> Js.truthy (Val (name r)) = true)
  /\ exists data rfields,
       network (List.length log) (tickerDetailsUrl POLYGON_API_KEY ticker) = Json data
       /\ exact_match toUpperCase ticker data rfields
       /\ (Js.truthy (Js.own "name" rfields) = true ->
           Val (name r) = Js.own "name" rfields)
       /\ (Js.truthy (Js.own "name" rfields) = false ->
           name r = JStr (toUpperCase ticker))
       /\ (Js.own "name" rfields = Undefined \/ Js.own "name" rfields = Val (JStr "") ->
           name r = JStr (toUpperCase ticker)).
Proof.
  cbv zeta. intros He.
  pose proof (checkTickerAndName_cases ticker log) as Hcases. cbv zeta in Hcases.
  destruct Hcases as [(_ & Ht & Hk & data & rfields & Hn & Hm & Hname) | Hnf];
    [| rewrite Hnf in He; discriminate He].
  set (r := fst (checkTickerAndName toUpperCase POLYGON_API_KEY network ticker log)) in *.
  split; [| split].
  - rewrite Hname. apply or_else_not_null.
  - intros Hu. rewrite Hname. apply or_else_is_truthy. cbn [Js.truthy].
    destruct (String.eqb (toUpperCase ticker) "") eqn:E; [| reflexivity].
    apply String.eqb_eq in E. contradiction.
  - exists data, rfields. repeat split; try assumption.
    + intros Hy. rewrite Hname. now apply or_else_truthy.
    + intros Hy. rewrite Hname. now apply or_else_falsy.
    + intros [E | E]; rewrite Hname, E; reflexivity.
Qed.

End TickerLookup.

Lemma C4_lookup_exists_iff_witness :
  exists_ (fst (checkTickerAndName Sample.upper Sample.key (Sample.always (Json Sample.aapl_details))
                                   "aapl" [])) = true
  /\ fst (checkTickerAndName Sample.upper Sample.key (Sample.always FetchFails) "aapl" []) = not_found.
Proof.
  split.
  - apply (C4_lookup_exists_iff Sample.upper Sample.key (Sample.always (Json Sample.aapl_details))
                                "aapl" []).
    split; [discriminate |]. split; [reflexivity |].
    eexists _, _. repeat split; reflexivity.
  - apply (C4_lookup_exists_iff Sample.upper Sample.key (Sample.always FetchFails) "aapl" []).
    reflexivity.
Defined.

Lemma C10_verified_ticker_has_name_witness :
  name (fst (checkTickerAndName Sample.upper Sample.key (Sample.always (Json Sample.aapl_details))
                                "aapl" [])) <> JNull.
Proof.
  apply (C10_verified_ticker_has_name Sample.upper Sample.key
           (Sample.always (Json Sample.aapl_details)) "aapl" []).
  reflexivity.
Defined.

(** ** Previous-close answers *)

Lemma as_number_some (v : value) (n : number) :
  Js.as_number v = Some n -> v = Val (JNum n).
Proof. destruct v as [| [ | | m | | | ]]; simpl; congruence. Qed.

Section PrevClose.
Variable TextToNumber : json -> number.

Lemma carries_close_has_results (data : json) (c : number) :
  carries_close data c ->
  Js.truthy (Val data) = true
  /\ has_results TextToNumber (Val data) = Normal true
  /\ first_close (Val data) = Normal (Val (JNum c)).
Proof.
  intros (fields & rfields & rest & -> & Hr & Hc).
  split; [reflexivity |].
  unfold has_results, first_close. cbn [Js.get cbind].
  rewrite Hr. cbn [Js.truthy Js.get Js.get0 cbind String.eqb Ascii.eqb Bool.eqb].
  rewrite Hc. cbn [List.length].
  now rewrite nonempty_length_positive.
Qed.

(** Every way through one iteration of the price loop. *)
Lemma stored_price_cases (resp : response) :
  stored_price TextToNumber resp = JsNumber.zero
  \/ exists data c,
       resp = Json data
       /\ first_close (Val data) = Normal (Val (JNum c))
       /\ stored_price TextToNumber resp = c.
Proof.
  destruct resp as [| data]; [now left |].
  unfold stored_price.
  destruct (Js.truthy (Val data)); [| now left].
  destruct (has_results TextToNumber (Val data)) as [[|] |]; cbn [cbind];
    try (now left).
  destruct (first_close (Val data)) as [v |] eqn:Hv; cbn [cbind]; [| now left].
  destruct (Js.as_number v) as [n |] eqn:Hn; [| now left].
  apply as_number_some in Hn. subst v.
  right. exists data, n. auto.
Qed.

Lemma stored_price_close (data : json) (c : number) :
  carries_close data c -> stored_price TextToNumber (Json data) = c.
Proof.
  intros H. destruct (carries_close_has_results data c H) as (Ht & Hh & Hf).
  unfold stored_price. rewrite Ht, Hh. cbn [cbind]. now rewrite Hf.
Qed.

Lemma exchange_close_cases (data : json) :
  match exchange_close TextToNumber data with
  | Normal r =>
      r = JsNumber.one \/ first_close (Val data) = Normal (Val (JNum r))
  | Throw => True
  end.
Proof.
  unfold exchange_close.
  destruct (Js.truthy (Val data)); [| now left].
  destruct (has_results TextToNumber (Val data)) as [[|] |]; cbn [cbind];
    try (now left); try exact I.
  destruct (first_close (Val data)) as [v |] eqn:Hv; cbn [cbind]; [| exact I].
  destruct (Js.as_number v) as [n |] eqn:Hn; [| now left].
  apply as_number_some in Hn. subst v. now right.
Qed.

Lemma euro_close_cases (data : json) :
  match euro_close TextToNumber data with
  | Normal (Some r) =>
      r = JsNumber.lit_1_08 \/ first_close (Val data) = Normal (Val (JNum r))
  | Normal None | Throw => True
  end.
Proof.
  unfold euro_close.
  destruct (Js.get (Val data) "status") as [status |]; cbn [cbind]; [| exact I].
  destruct (Js.is_string status "OK"); [| exact I].
  destruct (has_results TextToNumber (Val data)) as [[|] |]; cbn [cbind];
    try exact I.
  destruct (first_close (Val data)) as [v |] eqn:Hv; cbn [cbind]; [| exact I].
  destruct (Js.as_number v) as [n |] eqn:Hn; [| now left].
  apply as_number_some in Hn. subst v. now right.
Qed.

End PrevClose.

(** ** Exchange rates *)

Section Rates.
Variable POLYGON_API_KEY : option string.
Variable TextToNumber : json -> number.
Variable network : nat -> string -> response.

Abbreviation exchangeRate := (fetchExchangeRate POLYGON_API_KEY TextToNumber network).
Abbreviation euroRate := (fetchEuroToUsdRate POLYGON_API_KEY TextToNumber network).

Lemma fetchExchangeRate_same (cur : string) (log : list event) :
  exchangeRate cur cur log = (JsNumber.one, log).
Proof. unfold fetchExchangeRate. now rewrite String.eqb_refl. Qed.

Lemma fetchExchangeRate_no_key (from to : string) (log : list event) :
  key_missing POLYGON_API_KEY = true ->
  exchangeRate from to log = (JsNumber.one, log).
Proof.
  intros Hk. unfold fetchExchangeRate. rewrite Hk.
  now destruct (String.eqb from to).
Qed.

Lemma fetchExchangeRate_cases (from to : string) (log : list event) :
  fst (exchangeRate from to log) = JsNumber.one
  \/ exists data c,
       network (List.length log) (prevCloseUrl POLYGON_API_KEY ("C:" +:+ from +:+ to))
       = Json data
       /\ first_close (Val data) = Normal (Val (JNum c))
       /\ fst (exchangeRate from to log) = c.
Proof.
  unfold fetchExchangeRate.
  destruct (String.eqb from to); [now left |].
  destruct (key_missing POLYGON_API_KEY); [now left |].
  unfold bind, fetch_json, ret; cbn [fst].
  destruct (network _ _) as [| data] eqn:Hn; [now left |].
  pose proof (exchange_close_cases TextToNumber data) as H.
  destruct (exchange_close TextToNumber data) as [r |]; [| now left].
  destruct H as [-> | H]; [now left |].
  right. exists data, r. auto.
Qed.

Lemma fetchEuroToUsdRate_no_key (log : list event) :
  key_missing POLYGON_API_KEY = true -> euroRate log = (JsNumber.lit_1_08, log).
Proof. intros Hk. unfold fetchEuroToUsdRate. now rewrite Hk. Qed.

Lemma fetchEuroToUsdRate_fails (log : list event) :
  network (List.length log) (prevCloseUrl POLYGON_API_KEY "C:EURUSD") = FetchFails ->
  fst (euroRate log) = JsNumber.lit_1_08.
Proof.
  intros Hn. unfold fetchEuroToUsdRate.
  destruct (key_missing POLYGON_API_KEY); [reflexivity |].
  unfold bind, fetch_json, ret; cbn [fst]. now rewrite Hn.
Qed.

Lemma fetchEuroToUsdRate_cases (log : list event) :
  fst (euroRate log) = JsNumber.lit_1_08
  \/ exists data c,
       network (List.length log) (prevCloseUrl POLYGON_API_KEY "C:EURUSD") = Json data
       /\ first_close (Val data) = Normal (Val (JNum c))
       /\ fst (euroRate log) = c.
Proof.
  unfold fetchEuroToUsdRate.
  destruct (key_missing POLYGON_API_KEY); [now left |].
  unfold bind, fetch_json, ret; cbn [fst].
  destruct (network _ _) as [| data] eqn:Hn; [now left |].
  pose proof (euro_close_cases TextToNumber data) as H.
  destruct (euro_close TextToNumber data) as [[r |] |]; try (now left).
  destruct H as [-> | H]; [now left |].
  right. exists data, r. auto.
Qed.

(** C8: [fetchExchangeRate] answers 1.0 without a request when both
    currencies are the same or the API key is missing, and 1.0 when the
    request fails or its answer carries no numeric close;
    [fetchEuroToUsdRate] answers 1.08 in the corresponding cases; the
    two fallbacks are different numbers. *)
Theorem C8_rate_fallbacks (from to : string) (log : list event) :
  exchangeRate from from log = (JsNumber.one, log)
  /\ (key_missing POLYGON_API_KEY = true ->
      exchangeRate from to log = (JsNumber.one, log)
      /\ euroRate log = (JsNumber.lit_1_08, log))
  /\ (network (List.length log) (prevCloseUrl POLYGON_API_KEY ("C:" +:+ from +:+ to))
      = FetchFails ->
      fst (exchangeRate from to log) = JsNumber.one)
  /\ (network (List.length log) (prevCloseUrl POLYGON_API_KEY "C:EURUSD") = FetchFails ->
      fst (euroRate log) = JsNumber.lit_1_08)
  /\ (fst (exchangeRate from to log) = JsNumber.one
      \/ exists data c,
           network (List.length log)
                   (prevCloseUrl POLYGON_API_KEY ("C:" +:+ from +:+ to)) = Json data
           /\ first_close (Val data) = Normal (Val (JNum c))
           /\ fst (exchangeRate from to log) = c)
  /\ (fst (euroRate log) = JsNumber.lit_1_08
      \/ exists data c,
           network (List.length log) (prevCloseUrl POLYGON_API_KEY "C:EURUSD")
           = Json data
           /\ first_close (Val data) = Normal (Val (JNum c))
           /\ fst (euroRate log) = c)
  /\ JsNumber.strict_eq JsNumber.lit_1_08 JsNumber.one = false.
Proof.
  split; [apply fetchExchangeRate_same |].
  split; [intros Hk; split;
          [now apply fetchExchangeRate_no_key | now apply fetchEuroToUsdRate_no_key] |].
  split.
  { intros Hn. destruct (fetchExchangeRate_cases from to log)
      as [H | (data & c & Hd & _)]; [exact H | congruence]. }
  split; [apply fetchEuroToUsdRate_fails |].
  split; [apply fetchExchangeRate_cases |].
  split; [apply fetchEuroToUsdRate_cases |].
  reflexivity.
Qed.

End Rates.

Lemma C8_rate_fallbacks_witness :
  fetchExchangeRate None Sample.no_text (Sample.always FetchFails) "USD" "EUR" []
  = (JsNumber.one, [])
  /\ fetchEuroToUsdRate None Sample.no_text (Sample.always FetchFails) []
     = (JsNumber.lit_1_08, [])
  /\ fst (fetchExchangeRate Sample.key Sample.no_text (Sample.always FetchFails)
                            "USD" "EUR" []) = JsNumber.one
  /\ fst (fetchEuroToUsdRate Sample.key Sample.no_text (Sample.always FetchFails) [])
     = JsNumber.lit_1_08.
Proof.
  split; [| split; [| split]].
  - apply (C8_rate_fallbacks None Sample.no_text (Sample.always FetchFails) "USD" "EUR" []).
    reflexivity.
  - apply (C8_rate_fallbacks None Sample.no_text (Sample.always FetchFails) "USD" "EUR" []).
    reflexivity.
  - apply (C8_rate_fallbacks Sample.key Sample.no_text (Sample.always FetchFails)
                             "USD" "EUR" []).
    reflexivity.
  - apply (C8_rate_fallbacks Sample.key Sample.no_text (Sample.always FetchFails)
                             "USD" "EUR" []).
    reflexivity.
Defined.

(** ** The price loop *)

Lemma fromEntries_zero_acc (tickers : list string) (m : gmap string number) :
  let out := fold_left (fun m kv => <[fst kv := snd kv]> m)
                       (map (fun t => (t, JsNumber.zero)) tickers) m in
  dom out = dom m ∪ list_to_set tickers
  /\ (forall t, t ∈ tickers -> out !! t = Some JsNumber.zero)
  /\ (forall t, t ∉ tickers -> out !! t = m !! t).
Proof.
  revert m. induction tickers as [| x rest IH]; intros m; cbn [map fold_left list_to_set].
  - split; [set_solver |]. split; [| reflexivity].
    intros t Ht. inversion Ht.
  - specialize (IH (<[x := JsNumber.zero]> m)). cbv zeta in IH.
    destruct IH as (Hdom & Hin & Hout). cbn [fst snd].
    split; [rewrite Hdom, dom_insert_L; set_solver |].
    split.
    + intros t Ht.
      destruct (decide (t ∈ rest)) as [Hr | Hr]; [now apply Hin |].
      rewrite Hout by assumption.
      apply elem_of_cons in Ht as [-> | Ht]; [| contradiction].
      apply lookup_insert_eq.
    + intros t Ht. apply not_elem_of_cons in Ht as [Hne Hr].
      rewrite Hout by assumption. now apply lookup_insert_ne.
Qed.

(** *** Assignments to a plain object *)

Lemma set_lookup_ne (k t : string) (v : number) (o : gmap string number) :
  t <> k -> PlainObject.set k v o !! t = o !! t.
Proof.
  intros Hne. unfold PlainObject.set.
  destruct (String.eqb k "__proto__"); [destruct (o !! k) |];
    try reflexivity; now apply lookup_insert_ne.
Qed.

Lemma set_lookup_eq (k : string) (v : number) (o : gmap string number) :
  k <> "__proto__" -> PlainObject.set k v o !! k = Some v.
Proof.
  intros Hne. unfold PlainObject.set.
  apply String.eqb_neq in Hne. rewrite Hne. apply lookup_insert_eq.
Qed.

(** Assigning a number to [__proto__] leaves an object that has no own
    property of that name as it is. *)
Lemma set_proto_ignored (v : number) (o : gmap string number) :
  o !! "__proto__" = None -> PlainObject.set "__proto__" v o = o.
Proof. intros H. unfold PlainObject.set. cbn [String.eqb Ascii.eqb Bool.eqb]. now rewrite H. Qed.

Lemma set_keeps_proto_absent (k : string) (v : number) (o : gmap string number) :
  o !! "__proto__" = None -> PlainObject.set k v o !! "__proto__" = None.
Proof.
  intros H. destruct (decide (k = "__proto__")) as [-> | Hne].
  - now rewrite set_proto_ignored.
  - rewrite set_lookup_ne by congruence. exact H.
Qed.

Lemma storable_elem (tickers : list string) (t : string) :
  t ∈ storable tickers <-> t ∈ tickers /\ t <> "__proto__".
Proof.
  unfold storable. rewrite !list_elem_of_In, List.filter_In, negb_true_iff.
  now rewrite String.eqb_neq.
Qed.

Lemma set_dom (k : string) (v : number) (o : gmap string number) :
  o !! "__proto__" = None ->
  dom (PlainObject.set k v o) = dom o ∪ list_to_set (storable [k]).
Proof.
  intros H. unfold storable; cbn [List.filter].
  destruct (String.eqb k "__proto__") eqn:E.
  - apply String.eqb_eq in E. subst k. rewrite set_proto_ignored by exact H.
    cbn [negb list_to_set]. set_solver.
  - unfold PlainObject.set. rewrite E. cbn [negb list_to_set].
    rewrite dom_insert_L. set_solver.
Qed.

Section PriceLoop.
Variable POLYGON_API_KEY : option string.
Variable TextToNumber : json -> number.
Variable network : nat -> string -> response.

Abbreviation url := (prevCloseUrl POLYGON_API_KEY).
Abbreviation loop := (fetchStockPrices_loop POLYGON_API_KEY TextToNumber network).

(** The loop requests every ticker in order, whatever the earlier
    answers were, and leaves under each ticker but [__proto__] the
    value of its last request. *)
Lemma fetchStockPrices_loop_spec (tickers : list string) :
  forall (prices : gmap string number) (log : list event),
    prices !! "__proto__" = None ->
    snd (loop tickers prices log) = log ++ map (fun t => Fetch (url t)) tickers
    /\ fst (loop tickers prices log) !! "__proto__" = None
    /\ dom (fst (loop tickers prices log)) = dom prices ∪ list_to_set (storable tickers)
    /\ (forall t, t ∉ tickers -> fst (loop tickers prices log) !! t = prices !! t)
    /\ (forall i t, tickers !! i = Some t -> t ∉ drop (S i) tickers ->
          t <> "__proto__" ->
          fst (loop tickers prices log) !! t
          = Some (stored_price TextToNumber
                    (network (List.length log + i)%nat (url t)))).
Proof.
  induction tickers as [| x rest IH]; intros prices log Hp.
  - cbn. split; [now rewrite app_nil_r |]. split; [exact Hp |].
    split; [set_solver |].
    split; [reflexivity |]. intros i t Hi. now rewrite lookup_nil in Hi.
  - cbn [fetchStockPrices_loop]. unfold bind, fetch_json.
    set (v := stored_price TextToNumber (network (List.length log) (url x))).
    specialize (IH (PlainObject.set x v prices) (log ++ [Fetch (url x)])
                   (set_keeps_proto_absent x v prices Hp)).
    destruct IH as (Hlog & Hproto & Hdom & Hout & Hin).
    split; [| split; [| split; [| split]]].
    + rewrite Hlog. cbn [map]. now rewrite <- app_assoc.
    + exact Hproto.
    + rewrite Hdom, (set_dom x v prices Hp).
      apply set_eq. intros t.
      rewrite !elem_of_union, !elem_of_list_to_set, !storable_elem.
      rewrite !elem_of_cons, elem_of_nil. tauto.
    + intros t Ht. apply not_elem_of_cons in Ht as [Hne Hr].
      rewrite Hout by assumption. now apply set_lookup_ne.
    + intros [| i] t Hi Hlast Hnp.
      * cbn in Hi. injection Hi as ->. cbn [drop] in Hlast.
        rewrite Hout by assumption. rewrite set_lookup_eq by exact Hnp.
        unfold v. now rewrite Nat.add_0_r.
      * cbn in Hi. cbn [drop] in Hlast.
        rewrite (Hin i t Hi Hlast Hnp). rewrite length_app. cbn [List.length].
        do 3 f_equal. lia.
Qed.

(** The keys of the map [fetchStockPrices] returns. *)
Lemma fetchStockPrices_dom (tickers : list string) (log : list event) :
  dom (fst (fetchStockPrices POLYGON_API_KEY TextToNumber network tickers log))
  = list_to_set (if key_missing POLYGON_API_KEY then tickers else storable tickers).
Proof.
  unfold fetchStockPrices.
  destruct (key_missing POLYGON_API_KEY).
  - pose proof (fromEntries_zero_acc tickers ∅) as H. cbv zeta in H.
    destruct H as (Hdom & _).
    unfold ret, fromEntries; cbn [fst]. rewrite Hdom. set_solver.
  - destruct (fetchStockPrices_loop_spec tickers ∅ log (lookup_empty _))
      as (_ & _ & Hdom & _).
    rewrite Hdom. set_solver.
Qed.

(** What [fetchStockPrices] does for the tickers other than
    [__proto__]: each is a key of the map returned. Without an API key
    it maps to 0 and nothing is requested. With a key every ticker is
    requested in order, whatever happened to the earlier ones, and maps
    to the value of its (last) request: the close when the answer
    carries a numeric one, and 0 otherwise, in particular when the
    request fails. *)
Lemma fetchStockPrices_spec (tickers : list string) (log : list event) :
  let out := fetchStockPrices POLYGON_API_KEY TextToNumber network tickers log in
  (forall t, t <> "__proto__" -> (t ∈ dom (fst out) <-> t ∈ tickers))
  /\ (key_missing POLYGON_API_KEY = true ->
      snd out = log /\ forall t, t ∈ tickers -> fst out !! t = Some JsNumber.zero)
  /\ (key_missing POLYGON_API_KEY = false ->
      snd out = log ++ map (fun t => Fetch (url t)) tickers
      /\ forall i t, tickers !! i = Some t -> t ∉ drop (S i) tickers ->
           t <> "__proto__" ->
           fst out !! t
           = Some (stored_price TextToNumber
                     (network (List.length log + i)%nat (url t))))
  /\ stored_price TextToNumber FetchFails = JsNumber.zero
  /\ (forall data c, carries_close data c ->
        stored_price TextToNumber (Json data) = c)
  /\ (forall resp,
        stored_price TextToNumber resp = JsNumber.zero
        \/ exists data c,
             resp = Json data
             /\ first_close (Val data) = Normal (Val (JNum c))
             /\ stored_price TextToNumber resp = c).
Proof.
  cbv zeta. split.
  { intros t Ht. rewrite fetchStockPrices_dom, elem_of_list_to_set.
    destruct (key_missing POLYGON_API_KEY); [reflexivity |].
    rewrite storable_elem. tauto. }
  unfold fetchStockPrices.
  destruct (key_missing POLYGON_API_KEY) eqn:Hk.
  - pose proof (fromEntries_zero_acc tickers ∅) as H. cbv zeta in H.
    destruct H as (Hdom & Hin & _).
    unfold ret, fromEntries; cbn [fst snd].
    split; [intros _; split; [reflexivity | exact Hin] |].
    split; [discriminate |].
    split; [reflexivity |].
    split; [apply stored_price_close | apply stored_price_cases].
  - destruct (fetchStockPrices_loop_spec tickers ∅ log (lookup_empty _))
      as (Hlog & _ & _ & _ & Hin).
    split; [discriminate |].
    split; [intros _; split; [exact Hlog | exact Hin] |].
    split; [reflexivity |].
    split; [apply stored_price_close | apply stored_price_cases].
Qed.


End PriceLoop.


(** ** Refresh: every holding finds its ticker in the price map *)

Lemma existsb_eqb_elem (x : string) (seen : list string) :
  existsb (String.eqb x) seen = true <-> x ∈ seen.
Proof.
  rewrite existsb_exists. split.
  - intros (y & Hy & E). apply String.eqb_eq in E. subst y.
    now apply list_elem_of_In.
  - intros H. exists x. split; [now apply list_elem_of_In | apply String.eqb_refl].
Qed.

Lemma unique_from_elem (l : list string) :
  forall (seen : list string) (t : string),
    t ∈ unique_from seen l <-> t ∈ l /\ t ∉ seen.
Proof.
  induction l as [| x rest IH]; intros seen t; cbn [unique_from].
  - split; [intros H; inversion H | intros [H _]; inversion H].
  - destruct (existsb (String.eqb x) seen) eqn:E.
    + apply existsb_eqb_elem in E. rewrite IH. split.
      * intros [H1 H2]. split; [now apply elem_of_cons; right | exact H2].
      * intros [H1 H2]. split; [| exact H2].
        apply elem_of_cons in H1 as [-> | H1]; [contradiction | exact H1].
    + assert (Hx : x ∉ seen).
      { intros H. apply existsb_eqb_elem in H. congruence. }
      split.
      * intros H. apply elem_of_cons in H as [-> | H].
        -- split; [now left | exact Hx].
        -- apply IH in H as [H1 H2]. apply not_elem_of_cons in H2 as [_ H2].
           split; [now right | exact H2].
      * intros [H1 H2]. apply elem_of_cons.
        destruct (decide (t = x)) as [Etx | Hne]; [now left | right].
        apply IH. split.
        -- apply elem_of_cons in H1 as [Etx | H1]; [contradiction | exact H1].
        -- apply not_elem_of_cons. auto.
Qed.

Lemma unique_from_NoDup (l : list string) :
  forall seen : list string, NoDup (unique_from seen l).
Proof.
  induction l as [| x rest IH]; intros seen; cbn [unique_from].
  - constructor.
  - destruct (existsb (String.eqb x) seen); [apply IH |].
    constructor; [| apply IH].
    rewrite unique_from_elem. intros [_ H]. apply H. now left.
Qed.

Section Refresh.
Variable POLYGON_API_KEY : option string.
Variable TextToNumber : json -> number.
Variable network : nat -> string -> response.

(** After a successful query for a portfolio that is not empty, the rows
    are computed from a price map that has an entry for the ticker of
    every holding, the ticker [__proto__] apart. *)
Lemma fetchPortfolio_prices_cover (first : PortfolioItem number)
      (others : list (PortfolioItem number)) (current : list (DisplayItem number))
      (log : list event) :
  let portfolio := first :: others in
  let prices :=
    fst (fetchStockPrices POLYGON_API_KEY TextToNumber network
           (uniqueTickers portfolio) log) in
  fst (fetchPortfolio POLYGON_API_KEY TextToNumber network (Some portfolio) current log)
  = displayHoldings portfolio prices
  /\ NoDup (uniqueTickers portfolio)
  /\ forall it, it ∈ portfolio -> ticker it <> "__proto__" ->
       is_Some (prices !! ticker it).
Proof.
  cbv zeta. split; [| split].
  - unfold fetchPortfolio, bind, ret.
    now destruct (fetchStockPrices _ _ _ _ _).
  - apply unique_from_NoDup.
  - intros it Hit Hnp.
    apply elem_of_dom.
    apply (fetchStockPrices_spec POLYGON_API_KEY TextToNumber network); [exact Hnp |].
    unfold uniqueTickers. apply unique_from_elem. split.
    + now apply list_elem_of_fmap_2.
    + apply not_elem_of_nil.
Qed.

(** Switching back to USD asks nothing of the API. *)
Lemma handleCurrencyChange_USD (log : list event) :
  handleCurrencyChange POLYGON_API_KEY TextToNumber network "USD" log
  = (JsNumber.one, log).
Proof. reflexivity. Qed.

End Refresh.

(** ** The add form *)

Lemma inserts_app (a b : list event) : inserts (a ++ b) = inserts a ++ inserts b.
Proof. unfold inserts. apply flat_map_app. Qed.

Lemma updates_app (a b : list event) : updates (a ++ b) = updates a ++ updates b.
Proof. unfold updates. apply flat_map_app. Qed.

Lemma not_validated_with_ticker_error (e : option string) (st : AddStockForm.State) :
  AddStockForm.not_validated (AddStockForm.with_ticker_error e st)
  = AddStockForm.not_validated st.
Proof. reflexivity. Qed.

Section AddForm.
Variable toUpperCase : string -> string.
Variable POLYGON_API_KEY : option string.
Variable TextToNumber : json -> number.
Variable network : nat -> string -> response.
Variable insert_error : option string.

Lemma formSchema_inv (raw values : AddStockForm.Values) :
  AddStockForm.formSchema toUpperCase raw = Some values ->
  values = {| AddStockForm.ticker := toUpperCase (AddStockForm.ticker raw);
              AddStockForm.quantity := AddStockForm.quantity raw;
              AddStockForm.purchase_price := AddStockForm.purchase_price raw;
              AddStockForm.purchase_date := AddStockForm.purchase_date raw;
              AddStockForm.purchase_currency := AddStockForm.purchase_currency raw |}
  /\ AddStockForm.string_min1 (AddStockForm.ticker raw) = true
  /\ AddStockForm.number_min JsNumber.one (AddStockForm.quantity raw) = true
  /\ AddStockForm.number_min JsNumber.lit_0_01 (AddStockForm.purchase_price raw) = true
  /\ AddStockForm.string_min1 (AddStockForm.purchase_date raw) = true
  /\ AddStockForm.currency_enum (AddStockForm.purchase_currency raw) = true.
Proof.
  unfold AddStockForm.formSchema.
  destruct (AddStockForm.string_min1 (AddStockForm.ticker raw)); [| discriminate].
  destruct (AddStockForm.number_min JsNumber.one _); [| discriminate].
  destruct (AddStockForm.number_min JsNumber.lit_0_01 _); [| discriminate].
  destruct (AddStockForm.string_min1 (AddStockForm.purchase_date raw)); [| discriminate].
  destruct (AddStockForm.currency_enum _); [| discriminate].
  cbn [andb]. intros H. injection H as <-. auto 10.
Qed.

(** At least one share is more than none. *)
Lemma at_least_one_is_positive (q : number) :
  AddStockForm.number_min JsNumber.one q = true -> JsNumber.lt JsNumber.zero q = true.
Proof.
  unfold AddStockForm.number_min.
  destruct q as [[|] | [|] | | [|] m e]; intros H;
    first [reflexivity | exfalso; revert H; vm_compute; discriminate].
Qed.

(** What the add form writes has a positive quantity. *)
Lemma formSchema_quantity_positive (raw values : AddStockForm.Values) :
  AddStockForm.formSchema toUpperCase raw = Some values ->
  JsNumber.lt JsNumber.zero (AddStockForm.quantity values) = true.
Proof.
  intros H. destruct (formSchema_inv raw values H) as (-> & _ & Hq & _).
  cbn. now apply at_least_one_is_positive.
Qed.

Abbreviation euroRate := (fetchEuroToUsdRate POLYGON_API_KEY TextToNumber network).

Lemma fetchEuroToUsdRate_inserts (log : list event) :
  inserts (snd (euroRate log)) = inserts log.
Proof.
  unfold fetchEuroToUsdRate.
  destruct (key_missing POLYGON_API_KEY); [reflexivity |].
  unfold bind, fetch_json, ret.
  destruct (network (List.length log) (prevCloseUrl POLYGON_API_KEY "C:EURUSD"))
    as [| data]; cbn [snd]; rewrite inserts_app; cbn; apply app_nil_r.
Qed.

(** C3: a submission that passes the schema, with a verified ticker
    and a signed-in user, inserts exactly one row; its purchase price
    is the entered price times the EUR->USD rate when the currency is
    EUR and the entered price itself when it is USD; the rate is 1.08
    when the API key is missing or the request fails. *)
Theorem C3_stored_price (user_id : string) (raw values : AddStockForm.Values)
        (st : AddStockForm.State) (log : list event) :
  AddStockForm.formSchema toUpperCase raw = Some values ->
  AddStockForm.tickerValidated st = Some true ->
  let rate := fst (euroRate log) in
  inserts (snd (AddStockForm.handleSubmit toUpperCase POLYGON_API_KEY TextToNumber network
                  (Some user_id) insert_error raw st log))
  = inserts log
    ++ [ {| ins_user_id := user_id;
            ins_ticker := toUpperCase (AddStockForm.ticker raw);
            ins_quantity := AddStockForm.quantity raw;
            ins_purchase_price :=
              if String.eqb (AddStockForm.purchase_currency raw) "EUR"
              then JsNumber.mul (AddStockForm.purchase_price raw) rate
              else AddStockForm.purchase_price raw;
            ins_purchase_date := AddStockForm.purchase_date raw |} ]
  /\ (AddStockForm.purchase_currency raw = "EUR"
      \/ AddStockForm.purchase_currency raw = "USD")
  /\ (key_missing POLYGON_API_KEY = true -> rate = JsNumber.lit_1_08)
  /\ (network (List.length log) (prevCloseUrl POLYGON_API_KEY "C:EURUSD") = FetchFails ->
      rate = JsNumber.lit_1_08).
Proof.
  intros Hschema Hvalid. cbv zeta.
  destruct (formSchema_inv raw values Hschema) as (Hv & _ & _ & _ & _ & Hcur).
  split; [| split; [| split]].
  - unfold AddStockForm.handleSubmit. rewrite Hschema.
    unfold AddStockForm.onSubmit. rewrite not_validated_with_ticker_error.
    unfold AddStockForm.not_validated. rewrite Hvalid.
    subst values. cbn [AddStockForm.purchase_currency AddStockForm.purchase_price
                       AddStockForm.ticker AddStockForm.quantity
                       AddStockForm.purchase_date].
    destruct (String.eqb (AddStockForm.purchase_currency raw) "EUR").
    + unfold bind at 1 2. unfold ret at 1.
      pose proof (fetchEuroToUsdRate_inserts log) as Hins.
      destruct (euroRate log) as [rate log1]. cbn [fst snd] in *.
      unfold bind, emit, ret.
      destruct insert_error; cbn [snd];
        rewrite !inserts_app, Hins; cbn; now rewrite !app_nil_r.
    + unfold bind, emit, ret.
      destruct insert_error; cbn [snd];
        rewrite !inserts_app; cbn; now rewrite !app_nil_r.
  - unfold AddStockForm.currency_enum in Hcur.
    apply orb_true_iff in Hcur as [H | H]; apply String.eqb_eq in H; auto.
  - intros Hk. now rewrite fetchEuroToUsdRate_no_key.
  - apply fetchEuroToUsdRate_fails.
Qed.

(** C6: while the ticker is not verified, [onSubmit] only raises an
    alert: it inserts nothing and leaves the state as it was, and the
    submit button is disabled; and a form with an empty ticker, a
    quantity below 1, a price below 0.01, an empty date or a currency
    other than USD and EUR is rejected by the schema, so that
    submitting it sends nothing: no insert, no request and no alert. *)
Theorem C6_submission_blocked (user : option string) (raw : AddStockForm.Values)
        (st : AddStockForm.State) (log : list event) :
  (AddStockForm.tickerValidated st <> Some true ->
   AddStockForm.onSubmit POLYGON_API_KEY TextToNumber network user insert_error raw st log
   = (st, log ++ [Alert "Please validate the ticker before submitting."])
   /\ inserts (snd (AddStockForm.handleSubmit toUpperCase POLYGON_API_KEY TextToNumber network
                      user insert_error raw st log)) = inserts log
   /\ AddStockForm.submit_disabled st = true)
  /\ (AddStockForm.ticker raw = ""
      \/ JsNumber.lt (AddStockForm.quantity raw) JsNumber.one = true
      \/ JsNumber.lt (AddStockForm.purchase_price raw) JsNumber.lit_0_01 = true
      \/ AddStockForm.purchase_date raw = ""
      \/ (AddStockForm.purchase_currency raw <> "USD"
          /\ AddStockForm.purchase_currency raw <> "EUR") ->
      AddStockForm.formSchema toUpperCase raw = None
      /\ snd (AddStockForm.handleSubmit toUpperCase POLYGON_API_KEY TextToNumber network
                user insert_error raw st log) = log).
Proof.
  split.
  - intros Hnot.
    assert (Hnv : AddStockForm.not_validated st = true).
    { unfold AddStockForm.not_validated.
      destruct (AddStockForm.tickerValidated st) as [[|] |]; congruence. }
    assert (Hon : forall values,
               AddStockForm.onSubmit POLYGON_API_KEY TextToNumber network user
                 insert_error values st log
               = (st, log ++ [Alert "Please validate the ticker before submitting."])).
    { intros values. unfold AddStockForm.onSubmit. now rewrite Hnv. }
    split; [apply Hon |]. split.
    + unfold AddStockForm.handleSubmit.
      destruct (AddStockForm.formSchema toUpperCase raw) as [values |]; [| reflexivity].
      unfold AddStockForm.onSubmit.
      rewrite not_validated_with_ticker_error, Hnv.
      unfold bind, emit, ret. cbn [snd]. rewrite inserts_app. cbn. apply app_nil_r.
    + unfold AddStockForm.submit_disabled. rewrite Hnv.
      now destruct (AddStockForm.isSubmitting st).
  - intros Hbad.
    assert (Hrej : AddStockForm.formSchema toUpperCase raw = None).
    { destruct (AddStockForm.formSchema toUpperCase raw) as [values |] eqn:Hs; [| reflexivity].
      exfalso.
      destruct (formSchema_inv raw values Hs) as (_ & Ht & Hq & Hp & Hd & Hc).
      unfold AddStockForm.string_min1, AddStockForm.number_min,
        AddStockForm.currency_enum in *.
      destruct Hbad as [H | [H | [H | [H | [H1 H2]]]]].
      - rewrite H in Ht. discriminate.
      - rewrite H in Hq. now rewrite andb_false_r in Hq.
      - rewrite H in Hp. now rewrite andb_false_r in Hp.
      - rewrite H in Hd. discriminate.
      - apply orb_true_iff in Hc as [H | H]; apply String.eqb_eq in H; contradiction. }
    split; [exact Hrej |].
    unfold AddStockForm.handleSubmit. now rewrite Hrej.
Qed.

(** A lookup that fails leaves the dialog in the invalid state: the
    ticker carries an error and the form cannot be submitted. *)
Lemma performTickerCheck_failure (tk : string) (st : AddStockForm.State)
      (log : list event) :
  tk <> "" ->
  network (List.length log) (tickerDetailsUrl POLYGON_API_KEY tk) = FetchFails ->
  let st' := fst (AddStockForm.performTickerCheck toUpperCase POLYGON_API_KEY network tk st log) in
  AddStockForm.tickerValidated st' = Some false
  /\ AddStockForm.companyName st' = JNull
  /\ AddStockForm.tickerError st' = Some "Ticker symbol not found or invalid."
  /\ AddStockForm.submit_disabled st' = true.
Proof.
  intros Htk Hn. cbv zeta.
  assert (Hr : checkTickerAndName toUpperCase POLYGON_API_KEY network tk log
               = (not_found, snd (checkTickerAndName toUpperCase POLYGON_API_KEY network tk log))).
  { unfold checkTickerAndName.
    destruct (String.eqb tk "" || key_missing POLYGON_API_KEY); [reflexivity |].
    unfold bind, fetch_json, ret. now rewrite Hn. }
  unfold AddStockForm.performTickerCheck.
  apply String.eqb_neq in Htk. rewrite Htk.
  unfold bind. rewrite Hr. unfold ret; cbn.
  repeat split. unfold AddStockForm.submit_disabled; cbn.
  now destruct (AddStockForm.isSubmitting st).
Qed.

End AddForm.

Lemma C3_stored_price_witness :
  AddStockForm.formSchema Sample.upper Sample.euro_form <> None
  /\ inserts (snd (AddStockForm.handleSubmit Sample.upper Sample.key Sample.no_text
                     (Sample.always (Json (Sample.prev_close Sample.lit_1_1)))
                     (Some "u1") None Sample.euro_form Sample.verified []))
     = [ {| ins_user_id := "u1"; ins_ticker := "AAPL";
            ins_quantity := JsNumber.of_Z 5;
            ins_purchase_price := JsNumber.mul (JsNumber.of_Z 100) Sample.lit_1_1;
            ins_purchase_date := "2024-01-02" |} ].
Proof.
  split; [discriminate |].
  exact (proj1 (C3_stored_price Sample.upper Sample.key Sample.no_text
                  (Sample.always (Json (Sample.prev_close Sample.lit_1_1)))
                  None "u1" Sample.euro_form _ Sample.verified [] eq_refl eq_refl)).
Defined.

Lemma C6_submission_blocked_witness :
  inserts (snd (AddStockForm.handleSubmit Sample.upper Sample.key Sample.no_text
                  (Sample.always FetchFails) (Some "u1") None
                  Sample.euro_form Sample.unchecked [])) = []
  /\ snd (AddStockForm.handleSubmit Sample.upper Sample.key Sample.no_text
            (Sample.always FetchFails) (Some "u1") None
            Sample.empty_lot_form Sample.verified []) = [].
Proof.
  split.
  - apply (C6_submission_blocked Sample.upper Sample.key Sample.no_text (Sample.always FetchFails)
             None (Some "u1") Sample.euro_form Sample.unchecked []).
    discriminate.
  - apply (C6_submission_blocked Sample.upper Sample.key Sample.no_text (Sample.always FetchFails)
             None (Some "u1") Sample.empty_lot_form Sample.verified []).
    right. left. reflexivity.
Defined.

(** ** The edit form *)

Lemma handleSave_updates (update_error : option string) (holding : PortfolioItem number)
      (data : EditHoldingForm.Data) (log : list event) :
  updates (snd (EditHoldingForm.handleSave update_error holding data log))
  = updates log
    ++ [ (id holding,
          {| upd_quantity := EditHoldingForm.quantity data;
             upd_purchase_price := EditHoldingForm.purchase_price data;
             upd_purchase_date := EditHoldingForm.purchase_date data |}) ].
Proof.
  unfold EditHoldingForm.handleSave, bind, emit.
  destruct update_error; cbn [snd]; rewrite !updates_app; cbn;
    now rewrite !app_nil_r.
Qed.

(** C7, on the edit form: whatever is in the quantity field is written.
    Typing 0, clearing the field (which parses to NaN and becomes 0) or
    typing -5 and saving updates the holding to a quantity that is not
    positive. *)
Theorem C7_edit_writes_nonpositive_quantity :
  (forall (update_error : option string) (holding : PortfolioItem number)
          (data : EditHoldingForm.Data) (log : list event),
      map (fun u => upd_quantity (snd u))
          (updates (snd (EditHoldingForm.handleSave update_error holding data log)))
      = map (fun u => upd_quantity (snd u)) (updates log)
        ++ [EditHoldingForm.quantity data])
  /\ (let typed parsed :=
        EditHoldingForm.onQuantityChange parsed (EditHoldingForm.initial Sample.aapl) in
      let saved parsed :=
        map (fun u => upd_quantity (snd u))
            (updates (snd (EditHoldingForm.handleSave None Sample.aapl (typed parsed) []))) in
      saved JsNumber.zero = [JsNumber.zero]
      /\ saved S754_nan = [JsNumber.zero]
      /\ saved Sample.minus_five = [Sample.minus_five]
      /\ JsNumber.lt JsNumber.zero JsNumber.zero = false
      /\ JsNumber.lt JsNumber.zero Sample.minus_five = false).
Proof.
  split.
  - intros update_error holding data log.
    rewrite handleSave_updates, map_app. reflexivity.
  - cbv zeta. repeat split; vm_compute; reflexivity.
Qed.

(** ** Further properties: checking a ticker *)

Lemma requests_app (a b : list event) : requests (a ++ b) = requests a ++ requests b.
Proof. unfold requests. apply flat_map_app. Qed.

Section TickerChecks.
Variable toUpperCase : string -> string.
Variable POLYGON_API_KEY : option string.
Variable network : nat -> string -> response.

Abbreviation lookup := (checkTickerAndName toUpperCase POLYGON_API_KEY network).
Abbreviation check := (AddStockForm.performTickerCheck toUpperCase POLYGON_API_KEY network).
Abbreviation lookupUrl := (tickerDetailsUrl POLYGON_API_KEY).

Lemma checkTickerAndName_log (tk : string) (log : list event) :
  snd (lookup tk log)
  = log ++ (if String.eqb tk "" || key_missing POLYGON_API_KEY
            then [] else [Fetch (lookupUrl tk)]).
Proof.
  unfold checkTickerAndName.
  destruct (String.eqb tk "" || key_missing POLYGON_API_KEY).
  - unfold ret; cbn [snd]. now rewrite app_nil_r.
  - unfold bind, fetch_json, ret.
    now destruct (network (List.length log) (lookupUrl tk)).
Qed.

Lemma performTickerCheck_empty (st : AddStockForm.State) (log : list event) :
  check "" st log
  = ({| AddStockForm.open := AddStockForm.open st;
        AddStockForm.tickerValidated := None;
        AddStockForm.companyName := JNull;
        AddStockForm.isChecking := AddStockForm.isChecking st;
        AddStockForm.isSubmitting := AddStockForm.isSubmitting st;
        AddStockForm.tickerError := None |}, log).
Proof. reflexivity. Qed.

Lemma performTickerCheck_nonempty (tk : string) (st : AddStockForm.State)
      (log : list event) :
  tk <> "" ->
  check tk st log
  = (let r := fst (lookup tk log) in
     {| AddStockForm.open := AddStockForm.open st;
        AddStockForm.tickerValidated := Some (exists_ r);
        AddStockForm.companyName := if exists_ r then name r else JNull;
        AddStockForm.isChecking := false;
        AddStockForm.isSubmitting := AddStockForm.isSubmitting st;
        AddStockForm.tickerError :=
          if exists_ r then None else Some "Ticker symbol not found or invalid." |},
     snd (lookup tk log)).
Proof.
  intros Htk. apply String.eqb_neq in Htk.
  unfold AddStockForm.performTickerCheck. rewrite Htk.
  unfold bind, ret. now destruct (lookup tk log).
Qed.

Lemma performTickerCheck_requests (tk : string) (st : AddStockForm.State)
      (log : list event) :
  requests (snd (check tk st log)) = requests log ++ lookup_requests POLYGON_API_KEY tk.
Proof.
  unfold lookup_requests.
  destruct (String.eqb tk "") eqn:E.
  - apply String.eqb_eq in E. subst tk. rewrite performTickerCheck_empty.
    cbn. now rewrite app_nil_r.
  - apply String.eqb_neq in E. rewrite (performTickerCheck_nonempty tk st log E).
    cbn [snd]. rewrite checkTickerAndName_log, requests_app.
    apply String.eqb_neq in E. rewrite E. cbn [orb].
    now destruct (key_missing POLYGON_API_KEY).
Qed.

(** X1: whatever [toUpperCase] does to the ticker, a check of a
    non-empty ticker leaves the dialog Valid exactly when the lookup
    found an exact match, and Invalid otherwise; Valid comes with a
    company name and no error, Invalid with the error and no name, and
    the form can be submitted only when Valid. *)
Theorem check_valid_iff_exact_match (tk : string) (st : AddStockForm.State)
        (log : list event) :
  tk <> "" ->
  let st' := fst (check tk st log) in
  (AddStockForm.tickerValidated st' = Some true <->
     key_missing POLYGON_API_KEY = false
     /\ exists data rfields,
          network (List.length log) (lookupUrl tk) = Json data
          /\ exact_match toUpperCase tk data rfields)
  /\ (AddStockForm.tickerValidated st' = Some true
      /\ AddStockForm.tickerError st' = None
      /\ AddStockForm.companyName st' <> JNull
      \/ AddStockForm.tickerValidated st' = Some false
         /\ AddStockForm.tickerError st' = Some "Ticker symbol not found or invalid."
         /\ AddStockForm.companyName st' = JNull
         /\ AddStockForm.submit_disabled st' = true).
Proof.
  intros Htk. cbv zeta. rewrite (performTickerCheck_nonempty tk st log Htk).
  cbv zeta. cbn [fst].
  pose proof (checkTickerAndName_cases toUpperCase POLYGON_API_KEY network tk log) as Hcases.
  cbv zeta in Hcases.
  cbn [AddStockForm.tickerValidated AddStockForm.tickerError AddStockForm.companyName].
  destruct Hcases as [(He & _ & Hk & data & rfields & Hn & Hm & Hname) | Hnf].
  - rewrite He. split.
    + split; [intros _; split; [exact Hk | exists data, rfields; auto] | reflexivity].
    + left. split; [reflexivity |]. split; [reflexivity |].
      rewrite Hname. apply or_else_not_null.
  - rewrite Hnf. cbn [exists_ name not_found]. split.
    + split; [discriminate |].
      intros (Hk & data & rfields & Hn & Hm).
      pose proof (checkTickerAndName_found toUpperCase POLYGON_API_KEY network tk log data rfields
                    Htk Hk Hn Hm) as Hf.
      rewrite Hnf in Hf. discriminate.
    + right. repeat split.
      unfold AddStockForm.submit_disabled; cbn.
      now destruct (AddStockForm.isSubmitting st).
Qed.

End TickerChecks.

(** The answer for Apple makes the dialog Valid. *)
Lemma check_valid_iff_exact_match_witness :
  AddStockForm.tickerValidated
    (fst (AddStockForm.performTickerCheck Sample.upper Sample.key
            (Sample.always (Json Sample.aapl_details)) "aapl" Sample.unchecked []))
  = Some true.
Proof.
  apply (check_valid_iff_exact_match Sample.upper Sample.key
           (Sample.always (Json Sample.aapl_details)) "aapl" Sample.unchecked []).
  - discriminate.
  - split; [reflexivity |].
    eexists _, _. split; [reflexivity |].
    eexists. repeat split; reflexivity.
Defined.
(** ** Further properties: the debounced check *)

Lemma nonempty_has_length (v : string) : v <> "" -> (0 <? String.length v)%nat = true.
Proof. destruct v; [congruence | reflexivity]. Qed.

(** In a settled dialog the cleanup leaves no timer behind. *)
Lemma runCleanup_settled (d : TickerField.Dialog) :
  TickerField.settled d = true ->
  TickerField.timers (TickerField.runCleanup d) = []
  /\ TickerField.next_timer (TickerField.runCleanup d) = TickerField.next_timer d
  /\ TickerField.state (TickerField.runCleanup d) = TickerField.state d.
Proof.
  unfold TickerField.settled, TickerField.runCleanup.
  destruct (TickerField.timers d) as [| [i tk] [| t rest]] eqn:Ht;
    destruct (TickerField.cleanup d) as [j |] eqn:Hc; try discriminate;
    cbn [TickerField.timers TickerField.next_timer TickerField.state];
    rewrite ?Ht; intros H; cbn [TickerField.clearTimeout List.filter fst].
  - auto.
  - auto.
  - unfold TickerField.clearTimeout. cbn [List.filter fst]. rewrite H. auto.
Qed.

Section Debounce.
Variable toUpperCase : string -> string.
Variable POLYGON_API_KEY : option string.
Variable network : nat -> string -> response.

Abbreviation changeTo := (TickerField.changeTicker toUpperCase POLYGON_API_KEY network).
Abbreviation typed := (TickerField.typeAll toUpperCase POLYGON_API_KEY network).
Abbreviation fires := (TickerField.timerFires toUpperCase POLYGON_API_KEY network).
Abbreviation clicks := (TickerField.handleCheckClick toUpperCase POLYGON_API_KEY network).
Abbreviation checks := (AddStockForm.performTickerCheck toUpperCase POLYGON_API_KEY network).

(** A change to a non-empty value only cancels the pending check and
    schedules one for the new value. *)
Lemma changeTicker_nonempty (v : string) (d : TickerField.Dialog) (log : list event) :
  v <> "" -> v <> TickerField.tickerValue d ->
  changeTo v d log
  = ({| TickerField.tickerValue := v;
        TickerField.timers :=
          TickerField.timers (TickerField.runCleanup d) ++ [(TickerField.next_timer d, v)];
        TickerField.cleanup := Some (TickerField.next_timer d);
        TickerField.next_timer := S (TickerField.next_timer d);
        TickerField.state := TickerField.state d |}, log).
Proof.
  intros Hv Hne. unfold TickerField.changeTicker.
  apply String.eqb_neq in Hne. rewrite Hne.
  unfold TickerField.tickerEffect, TickerField.watch.
  cbn [TickerField.tickerValue TickerField.timers TickerField.next_timer TickerField.state].
  rewrite (nonempty_has_length v Hv). unfold ret.
  unfold TickerField.runCleanup. now destruct (TickerField.cleanup d).
Qed.

(** A change to the empty value cancels the pending check and resets
    the dialog. *)
Lemma changeTicker_empty (d : TickerField.Dialog) (log : list event) :
  TickerField.tickerValue d <> "" ->
  changeTo "" d log
  = ({| TickerField.tickerValue := "";
        TickerField.timers := TickerField.timers (TickerField.runCleanup d);
        TickerField.cleanup := None;
        TickerField.next_timer := TickerField.next_timer d;
        TickerField.state := fst (checks "" (TickerField.state d) log) |}, log).
Proof.
  intros Hne. unfold TickerField.changeTicker.
  destruct (String.eqb "" (TickerField.tickerValue d)) eqn:E.
  - apply String.eqb_eq in E. congruence.
  - unfold TickerField.tickerEffect, TickerField.watch.
    cbn [TickerField.tickerValue TickerField.timers TickerField.next_timer
         TickerField.state String.length Nat.ltb Nat.leb].
    unfold bind. rewrite !performTickerCheck_empty. unfold ret. cbn [fst].
    unfold TickerField.runCleanup. now destruct (TickerField.cleanup d).
Qed.

Lemma changeTicker_requests (v : string) (d : TickerField.Dialog) (log : list event) :
  requests (snd (changeTo v d log)) = requests log.
Proof.
  unfold TickerField.changeTicker.
  destruct (String.eqb v (TickerField.tickerValue d)); [reflexivity |].
  unfold TickerField.tickerEffect. cbn [TickerField.tickerValue TickerField.watch].
  destruct (0 <? String.length v)%nat; [reflexivity |].
  unfold bind. rewrite performTickerCheck_empty. reflexivity.
Qed.

(** The handlers keep the dialog settled: at most one timer is pending,
    and it is the one the next cleanup clears. *)
Lemma changeTicker_settled (v : string) (d : TickerField.Dialog) (log : list event) :
  TickerField.settled d = true ->
  TickerField.settled (fst (changeTo v d log)) = true.
Proof.
  intros Hs.
  destruct (String.eqb v (TickerField.tickerValue d)) eqn:E.
  - unfold TickerField.changeTicker. now rewrite E.
  - apply String.eqb_neq in E.
    destruct (runCleanup_settled d Hs) as (Ht & _).
    destruct (String.eqb v "") eqn:Ev.
    + apply String.eqb_eq in Ev. subst v.
      rewrite changeTicker_empty by congruence.
      unfold TickerField.settled. cbn [fst TickerField.timers]. now rewrite Ht.
    + apply String.eqb_neq in Ev.
      rewrite changeTicker_nonempty by assumption.
      unfold TickerField.settled. cbn [fst TickerField.timers TickerField.cleanup].
      rewrite Ht. cbn [app]. apply Nat.eqb_refl.
Qed.

Lemma timerFires_settled (d : TickerField.Dialog) (log : list event) :
  TickerField.settled d = true ->
  TickerField.settled (fst (fires d log)) = true.
Proof.
  unfold TickerField.settled, TickerField.timerFires.
  destruct (TickerField.timers d) as [| [i tk] [| t rest]] eqn:Ht.
  - unfold ret; cbn [fst]. now rewrite Ht.
  - intros _. unfold bind, ret.
    now destruct (checks tk (TickerField.state d) log).
  - now destruct (TickerField.cleanup d).
Qed.

Lemma handleCheckClick_settled (d : TickerField.Dialog) (log : list event) :
  TickerField.settled d = true ->
  TickerField.settled (fst (clicks d log)) = true.
Proof.
  unfold TickerField.handleCheckClick.
  destruct (String.eqb (TickerField.tickerValue d) ""); [now unfold ret |].
  unfold bind, ret.
  now destruct (checks (TickerField.tickerValue d) (TickerField.state d) log).
Qed.

Lemma typeAll_requests (vs : list string) :
  forall (d : TickerField.Dialog) (log : list event),
    requests (snd (typed vs d log)) = requests log.
Proof.
  induction vs as [| v rest IH]; intros d log; cbn [TickerField.typeAll].
  - reflexivity.
  - unfold bind. pose proof (changeTicker_requests v d log) as H.
    destruct (changeTo v d log) as [d' log']. cbn [snd] in H.
    now rewrite IH.
Qed.

Lemma typeAll_settled (vs : list string) :
  forall (d : TickerField.Dialog) (log : list event),
    TickerField.settled d = true ->
    TickerField.settled (fst (typed vs d log)) = true.
Proof.
  induction vs as [| v rest IH]; intros d log Hs; cbn [TickerField.typeAll].
  - exact Hs.
  - unfold bind. pose proof (changeTicker_settled v d log Hs) as H.
    destruct (changeTo v d log) as [d' log']. cbn [fst] in H.
    now apply IH.
Qed.

Lemma typeAll_app (vs : list string) (v : string) :
  forall (d : TickerField.Dialog) (log : list event),
    typed (vs ++ [v]) d log
    = changeTo v (fst (typed vs d log)) (snd (typed vs d log)).
Proof.
  induction vs as [| w rest IH]; intros d log; cbn [app TickerField.typeAll].
  - unfold bind, ret; cbn [fst snd]. now destruct (changeTo v d log).
  - unfold bind. destruct (changeTo w d log) as [d' log']. apply IH.
Qed.

Lemma timerFires_pending (d : TickerField.Dialog) (i : nat) (tk : string)
      (rest : list (nat * string)) (log : list event) :
  TickerField.timers d = (i, tk) :: rest ->
  fires d log
  = ({| TickerField.tickerValue := TickerField.tickerValue d;
        TickerField.timers := rest;
        TickerField.cleanup := TickerField.cleanup d;
        TickerField.next_timer := TickerField.next_timer d;
        TickerField.state := fst (checks tk (TickerField.state d) log) |},
     snd (checks tk (TickerField.state d) log)).
Proof.
  intros H. unfold TickerField.timerFires. rewrite H. unfold bind, ret.
  now destruct (AddStockForm.performTickerCheck _ _ _ _ _).
Qed.

Lemma timerFires_idle (d : TickerField.Dialog) (log : list event) :
  TickerField.timers d = [] -> fires d log = (d, log).
Proof. intros H. unfold TickerField.timerFires. now rewrite H. Qed.

Lemma timeout_pending (d : TickerField.Dialog) (v : string) :
  TickerField.timeout d = Some v ->
  exists i rest, TickerField.timers d = (i, v) :: rest.
Proof.
  unfold TickerField.timeout.
  destruct (TickerField.timers d) as [| [i tk] rest]; [discriminate |].
  intros H. injection H as ->. eauto.
Qed.

(** X2: typing never contacts the API. In a dialog where no timer is
    pending but the one the next cleanup clears, after any burst of
    changes that ends on a non-empty ticker exactly one timer is
    pending, the one set for the final value: the timers set for the
    earlier values have been cleared. When it elapses exactly one lookup
    is sent, for that value (none without an API key), and no timer is
    pending any more. *)
Theorem debounce_checks_final_value_once (vs : list string) (v : string)
        (d : TickerField.Dialog) (log : list event) :
  TickerField.settled d = true ->
  v <> "" ->
  TickerField.tickerValue (fst (typed vs d log)) <> v ->
  let burst := typed (vs ++ [v]) d log in
  let after := fires (fst burst) (snd burst) in
  requests (snd burst) = requests log
  /\ TickerField.tickerValue (fst burst) = v
  /\ (exists i, TickerField.timers (fst burst) = [(i, v)]
                /\ TickerField.cleanup (fst burst) = Some i)
  /\ TickerField.timeout (fst burst) = Some v
  /\ requests (snd after) = requests log ++ lookup_requests POLYGON_API_KEY v
  /\ (List.length (lookup_requests POLYGON_API_KEY v) <= 1)%nat
  /\ TickerField.timers (fst after) = []
  /\ fires (fst after) (snd after) = after.
Proof.
  intros Hs Hv Hne. cbv zeta.
  rewrite typeAll_app.
  pose proof (typeAll_requests vs d log) as Hreq.
  pose proof (typeAll_settled vs d log Hs) as Hs1.
  destruct (typed vs d log) as [d1 log1]. cbn [fst snd] in *.
  rewrite (changeTicker_nonempty v d1 log1 Hv) by congruence.
  destruct (runCleanup_settled d1 Hs1) as (Ht & _). rewrite Ht. cbn [app].
  cbn [fst snd TickerField.tickerValue TickerField.timers TickerField.cleanup].
  split; [exact Hreq |]. split; [reflexivity |].
  split; [exists (TickerField.next_timer d1); split; reflexivity |].
  split; [reflexivity |].
  erewrite timerFires_pending by reflexivity.
  cbn [fst snd TickerField.tickerValue TickerField.timers TickerField.state].
  split; [now rewrite performTickerCheck_requests, Hreq |].
  split; [unfold lookup_requests; destruct (_ || _); cbn; lia |].
  split; [reflexivity |].
  now apply timerFires_idle.
Qed.

(** X3: the check button does not cancel a pending check. Clicking it
    while the check of a non-empty ticker is pending looks the ticker
    up and leaves the timer running, so that the same ticker is looked
    up a second time when the timer elapses. *)
Theorem check_button_keeps_the_timer (v : string) (d : TickerField.Dialog)
        (log : list event) :
  v <> "" ->
  TickerField.tickerValue d = v ->
  TickerField.timeout d = Some v ->
  let clicked := clicks d log in
  let after := fires (fst clicked) (snd clicked) in
  TickerField.timeout (fst clicked) = Some v
  /\ requests (snd clicked) = requests log ++ lookup_requests POLYGON_API_KEY v
  /\ requests (snd after)
     = requests log ++ lookup_requests POLYGON_API_KEY v
                    ++ lookup_requests POLYGON_API_KEY v
  /\ TickerField.timers (fst clicked) = TickerField.timers d.
Proof.
  intros Hv Hval Hto. cbv zeta.
  destruct (timeout_pending d v Hto) as (i & rest & Htimers).
  assert (Hclick : clicks d log
                   = ({| TickerField.tickerValue := v;
                         TickerField.timers := (i, v) :: rest;
                         TickerField.cleanup := TickerField.cleanup d;
                         TickerField.next_timer := TickerField.next_timer d;
                         TickerField.state := fst (checks v (TickerField.state d) log) |},
                      snd (checks v (TickerField.state d) log))).
  { unfold TickerField.handleCheckClick. rewrite Hval, Htimers.
    apply String.eqb_neq in Hv. rewrite Hv. unfold bind, ret.
    now destruct (AddStockForm.performTickerCheck _ _ _ _ _). }
  rewrite Hclick. cbn [fst snd TickerField.timers].
  split; [reflexivity |].
  split; [apply performTickerCheck_requests |].
  split; [| now rewrite Htimers].
  erewrite timerFires_pending by reflexivity. cbn [snd TickerField.state].
  rewrite !performTickerCheck_requests. now rewrite app_assoc.
Qed.

(** X13: clearing the field takes effect at once. In a dialog where no
    timer is pending but the one the next cleanup clears, the pending
    timer is cleared, the dialog is back to Unchecked with no name and
    no error, the form cannot be submitted, and nothing is requested,
    now or when the timer would have elapsed. *)
Theorem clearing_the_field_resets (d : TickerField.Dialog) (log : list event) :
  TickerField.settled d = true ->
  TickerField.tickerValue d <> "" ->
  let cleared := changeTo "" d log in
  snd cleared = log
  /\ TickerField.timers (fst cleared) = []
  /\ TickerField.timeout (fst cleared) = None
  /\ AddStockForm.tickerValidated (TickerField.state (fst cleared)) = None
  /\ AddStockForm.companyName (TickerField.state (fst cleared)) = JNull
  /\ AddStockForm.tickerError (TickerField.state (fst cleared)) = None
  /\ AddStockForm.submit_disabled (TickerField.state (fst cleared)) = true
  /\ fires (fst cleared) (snd cleared) = cleared.
Proof.
  intros Hs Hne. cbv zeta.
  rewrite (changeTicker_empty d log Hne).
  destruct (runCleanup_settled d Hs) as (Ht & _). rewrite Ht.
  cbn [fst snd TickerField.timers TickerField.state].
  rewrite performTickerCheck_empty. cbn [fst].
  split; [reflexivity |]. split; [reflexivity |]. split; [reflexivity |].
  split; [reflexivity |]. split; [reflexivity |]. split; [reflexivity |].
  split; [| now apply timerFires_idle].
  unfold AddStockForm.submit_disabled; cbn.
  now destruct (AddStockForm.isSubmitting (TickerField.state d)).
Qed.

End Debounce.

(** Typing "a", "aa", "aap" into the fresh dialog: the timers set for
    "a" and "aa" have been cleared and the one for "aap" is pending. *)
Lemma debounce_checks_final_value_once_witness :
  requests (snd (TickerField.typeAll Sample.upper Sample.key (Sample.always FetchFails)
                   (["a"; "aa"] ++ ["aap"]) Scenario.fresh [])) = []
  /\ exists i,
       TickerField.timers
         (fst (TickerField.typeAll Sample.upper Sample.key (Sample.always FetchFails)
                 (["a"; "aa"] ++ ["aap"]) Scenario.fresh [])) = [(i, "aap")]
       /\ TickerField.cleanup
            (fst (TickerField.typeAll Sample.upper Sample.key (Sample.always FetchFails)
                    (["a"; "aa"] ++ ["aap"]) Scenario.fresh [])) = Some i.
Proof.
  pose proof (debounce_checks_final_value_once Sample.upper Sample.key
                (Sample.always FetchFails)
                ["a"; "aa"] "aap" Scenario.fresh []) as H.
  cbv zeta in H.
  assert (H0 : TickerField.settled Scenario.fresh = true) by reflexivity.
  assert (H1 : "aap" <> "") by discriminate.
  assert (H2 : TickerField.tickerValue
                 (fst (TickerField.typeAll Sample.upper Sample.key
                         (Sample.always FetchFails)
                         ["a"; "aa"] Scenario.fresh [])) <> "aap")
    by (vm_compute; discriminate).
  destruct (H H0 H1 H2) as (Hr & _ & Ht & _).
  split; [exact Hr | exact Ht].
Defined.

(** Clicking the button while the check of "aapl" is pending. *)
Lemma check_button_keeps_the_timer_witness :
  TickerField.timeout
    (fst (TickerField.handleCheckClick Sample.upper Sample.key (Sample.always FetchFails)
            Scenario.pending_aapl [])) = Some "aapl".
Proof.
  apply (check_button_keeps_the_timer Sample.upper Sample.key (Sample.always FetchFails)
           "aapl" Scenario.pending_aapl []).
  - discriminate.
  - reflexivity.
  - reflexivity.
Defined.

(** "aapl" is deleted from the field while its check is pending. *)
Lemma clearing_the_field_resets_witness :
  TickerField.timers
    (fst (TickerField.changeTicker Sample.upper Sample.key (Sample.always FetchFails) ""
            Scenario.pending_aapl [])) = [].
Proof.
  apply (clearing_the_field_resets Sample.upper Sample.key (Sample.always FetchFails)
           Scenario.pending_aapl []).
  - reflexivity.
  - discriminate.
Defined.

(** ** Further properties: submitting the add form *)

Lemma string_min1_nonempty (s : string) : AddStockForm.string_min1 s = true -> s <> "".
Proof. destruct s; [discriminate | discriminate]. Qed.

Lemma with_ticker_error_same (st : AddStockForm.State) :
  AddStockForm.tickerError st = None -> AddStockForm.with_ticker_error None st = st.
Proof. destruct st; cbn. now intros ->. Qed.

Lemma last_of_two {A : Type} (l : list A) (a b : A) : last (l ++ [a; b]) = Some b.
Proof.
  change (l ++ [a; b]) with (l ++ ([a] ++ [b])).
  rewrite app_assoc. apply last_snoc.
Qed.

Section Submission.
Variable toUpperCase : string -> string.
Variable POLYGON_API_KEY : option string.
Variable TextToNumber : json -> number.
Variable network : nat -> string -> response.

Abbreviation euroRate := (fetchEuroToUsdRate POLYGON_API_KEY TextToNumber network).
Abbreviation submit := (AddStockForm.handleSubmit toUpperCase POLYGON_API_KEY TextToNumber network).
Abbreviation euroUrl := (prevCloseUrl POLYGON_API_KEY "C:EURUSD").

Lemma fetchEuroToUsdRate_log (log : list event) :
  snd (euroRate log)
  = log ++ (if key_missing POLYGON_API_KEY then [] else [Fetch euroUrl]).
Proof.
  unfold fetchEuroToUsdRate.
  destruct (key_missing POLYGON_API_KEY).
  - unfold ret; cbn [snd]. now rewrite app_nil_r.
  - unfold bind, fetch_json, ret.
    now destruct (network (List.length log) euroUrl).
Qed.

Abbreviation priced := (submitted_price POLYGON_API_KEY TextToNumber network).

Lemma onSubmit_blocked (user insert_error : option string)
      (values : AddStockForm.Values) (st : AddStockForm.State) (log : list event) :
  AddStockForm.not_validated st = true ->
  AddStockForm.onSubmit POLYGON_API_KEY TextToNumber network user insert_error values st log
  = (st, log ++ [Alert "Please validate the ticker before submitting."]).
Proof. intros H. unfold AddStockForm.onSubmit. now rewrite H. Qed.

Lemma onSubmit_signed_out (insert_error : option string)
      (values : AddStockForm.Values) (st : AddStockForm.State) (log : list event) :
  AddStockForm.not_validated st = false ->
  AddStockForm.onSubmit POLYGON_API_KEY TextToNumber network None insert_error values st log
  = (st, log ++ [Alert "You must be logged in to add a stock."]).
Proof. intros H. unfold AddStockForm.onSubmit. now rewrite H. Qed.

Lemma onSubmit_inserts (user_id : string) (insert_error : option string)
      (values : AddStockForm.Values) (st : AddStockForm.State) (log : list event) :
  AddStockForm.not_validated st = false ->
  AddStockForm.onSubmit POLYGON_API_KEY TextToNumber network (Some user_id)
    insert_error values st log
  = (match insert_error with Some _ => st | None => closed_dialog st end,
     snd (priced values log)
     ++ [Insert {| ins_user_id := user_id;
                   ins_ticker := AddStockForm.ticker values;
                   ins_quantity := AddStockForm.quantity values;
                   ins_purchase_price := fst (priced values log);
                   ins_purchase_date := AddStockForm.purchase_date values |};
         match insert_error with
         | Some message => Alert ("Error: " +:+ message)
         | None => OnSuccess
         end]).
Proof.
  intros H. unfold AddStockForm.onSubmit, submitted_price. rewrite H.
  destruct (String.eqb (AddStockForm.purchase_currency values) "EUR").
  - unfold bind at 1 2. unfold ret at 1.
    destruct (euroRate log) as [rate log1]. cbn [fst snd].
    unfold bind, emit, ret.
    destruct insert_error; cbn; now rewrite <- app_assoc.
  - unfold bind, emit, ret.
    destruct insert_error; cbn; now rewrite <- app_assoc.
Qed.

(** The requests a submission sends for the values [raw]: the EUR->USD
    rate, when the currency is EUR and an API key is configured. *)
Lemma priced_requests (values : AddStockForm.Values) (log : list event) :
  requests (snd (priced values log))
  = requests log
    ++ (if String.eqb (AddStockForm.purchase_currency values) "EUR"
           && negb (key_missing POLYGON_API_KEY)
        then [euroUrl] else []).
Proof.
  unfold submitted_price.
  destruct (String.eqb (AddStockForm.purchase_currency values) "EUR"); cbn [andb snd].
  - rewrite fetchEuroToUsdRate_log, requests_app.
    now destruct (key_missing POLYGON_API_KEY).
  - now rewrite app_nil_r.
Qed.

Lemma priced_inserts (values : AddStockForm.Values) (log : list event) :
  inserts (snd (priced values log)) = inserts log.
Proof.
  unfold submitted_price.
  destruct (String.eqb (AddStockForm.purchase_currency values) "EUR"); cbn [snd];
    [| reflexivity].
  rewrite fetchEuroToUsdRate_log, inserts_app.
  destruct (key_missing POLYGON_API_KEY); cbn; now rewrite app_nil_r.
Qed.

(** X5: everything a submission can do. Either nothing is inserted and
    nothing is requested, and the dialog stays as it was but for the
    error shown on the ticker; or exactly one row is inserted, and then
    the ticker had been verified, the row belongs to the signed-in user,
    its ticker is the typed one, which is not empty, in uppercase, its
    quantity is the typed one and is positive, its date is not empty,
    and the only request sent is the one for the EUR->USD rate, sent
    when the currency is EUR and an API key is configured. *)
Theorem submission_inserts_at_most_one_valid_row
        (user insert_error : option string) (raw : AddStockForm.Values)
        (st : AddStockForm.State) (log : list event) :
  let out := submit user insert_error raw st log in
  (inserts (snd out) = inserts log
   /\ requests (snd out) = requests log
   /\ exists e, fst out = AddStockForm.with_ticker_error e st)
  \/ exists row,
       inserts (snd out) = inserts log ++ [row]
       /\ AddStockForm.tickerValidated st = Some true
       /\ user = Some (ins_user_id row)
       /\ ins_ticker row = toUpperCase (AddStockForm.ticker raw)
       /\ AddStockForm.ticker raw <> ""
       /\ ins_quantity row = AddStockForm.quantity raw
       /\ JsNumber.lt JsNumber.zero (ins_quantity row) = true
       /\ ins_purchase_date row = AddStockForm.purchase_date raw
       /\ ins_purchase_date row <> ""
       /\ (String.eqb (AddStockForm.purchase_currency raw) "EUR" = false ->
           ins_purchase_price row = AddStockForm.purchase_price raw)
       /\ requests (snd out)
          = requests log
            ++ (if String.eqb (AddStockForm.purchase_currency raw) "EUR"
                   && negb (key_missing POLYGON_API_KEY)
                then [euroUrl] else []).
Proof.
  cbv zeta. unfold AddStockForm.handleSubmit.
  destruct (AddStockForm.formSchema toUpperCase raw) as [values |] eqn:Hs;
    [| left; unfold ret; cbn [fst snd]; eauto].
  destruct (AddStockForm.not_validated st) eqn:Hnv.
  { left. rewrite onSubmit_blocked by assumption. cbn [fst snd].
    rewrite inserts_app, requests_app. cbn. rewrite !app_nil_r. eauto. }
  destruct user as [user_id |].
  2:{ left. rewrite onSubmit_signed_out by assumption. cbn [fst snd].
      rewrite inserts_app, requests_app. cbn. rewrite !app_nil_r. eauto. }
  right. rewrite onSubmit_inserts by assumption. cbn [fst snd].
  destruct (formSchema_inv toUpperCase raw values Hs) as (Hv & Ht & Hq & _ & Hd & _).
  eexists. split.
  { rewrite inserts_app, priced_inserts.
    destruct insert_error; cbn; reflexivity. }
  cbn [ins_user_id ins_ticker ins_quantity ins_purchase_date ins_purchase_price].
  subst values.
  cbn [AddStockForm.ticker AddStockForm.quantity AddStockForm.purchase_date].
  split.
  { unfold AddStockForm.not_validated in Hnv.
    destruct (AddStockForm.tickerValidated st) as [[|] |]; congruence. }
  split; [reflexivity |]. split; [reflexivity |].
  split; [now apply string_min1_nonempty |].
  split; [reflexivity |].
  split; [now apply at_least_one_is_positive |].
  split; [reflexivity |].
  split; [now apply string_min1_nonempty |].
  split.
  { intros Hc. unfold submitted_price.
    cbn [AddStockForm.purchase_currency AddStockForm.purchase_price].
    now rewrite Hc. }
  rewrite requests_app, priced_requests.
  cbn [AddStockForm.purchase_currency].
  destruct insert_error; cbn; now rewrite app_nil_r.
Qed.

(** X6: after a submission whose insert succeeded the dialog is closed
    and back to Unchecked, so that no further submission, whatever its
    values, inserts anything until a ticker is verified again; after one
    whose insert failed the error has been shown and the dialog is as it
    was, the form showing no error on the ticker (the resolver found
    none): it is the very state it was in, if it showed none before. *)
Theorem submission_outcome (user_id : string) (insert_error : option string)
        (raw values : AddStockForm.Values) (st : AddStockForm.State) (log : list event) :
  AddStockForm.formSchema toUpperCase raw = Some values ->
  AddStockForm.tickerValidated st = Some true ->
  let out := submit (Some user_id) insert_error raw st log in
  match insert_error with
  | None =>
      AddStockForm.open (fst out) = false
      /\ AddStockForm.tickerValidated (fst out) = None
      /\ AddStockForm.submit_disabled (fst out) = true
      /\ last (snd out) = Some OnSuccess
      /\ forall (user' error' : option string) (raw' : AddStockForm.Values),
           inserts (snd (submit user' error' raw' (fst out) (snd out)))
           = inserts (snd out)
  | Some message =>
      fst out = AddStockForm.with_ticker_error None st
      /\ (AddStockForm.tickerError st = None -> fst out = st)
      /\ last (snd out) = Some (Alert ("Error: " +:+ message))
  end.
Proof.
  intros Hs Hv. cbv zeta.
  assert (Hnv : AddStockForm.not_validated (AddStockForm.with_ticker_error None st) = false)
    by (rewrite not_validated_with_ticker_error;
        unfold AddStockForm.not_validated; now rewrite Hv).
  assert (Hout : submit (Some user_id) insert_error raw st log
                 = AddStockForm.onSubmit POLYGON_API_KEY TextToNumber network
                     (Some user_id) insert_error values
                     (AddStockForm.with_ticker_error None st) log)
    by (unfold AddStockForm.handleSubmit; now rewrite Hs).
  rewrite Hout, onSubmit_inserts by assumption. clear Hout.
  destruct insert_error as [message |]; cbn [fst snd].
  - split; [reflexivity |].
    split; [intros He; now apply with_ticker_error_same |].
    apply last_of_two.
  - split; [reflexivity |]. split; [reflexivity |].
    split; [unfold AddStockForm.submit_disabled; cbn;
            now destruct (AddStockForm.isSubmitting st) |].
    split; [apply last_of_two |].
    intros user' error' raw'. unfold AddStockForm.handleSubmit.
    destruct (AddStockForm.formSchema toUpperCase raw') as [values' |]; [| reflexivity].
    rewrite onSubmit_blocked by reflexivity. cbn [snd].
    rewrite (inserts_app _ [Alert _]). cbn. now rewrite app_nil_r.
Qed.

End Submission.

Lemma submission_outcome_witness :
  AddStockForm.tickerValidated
    (fst (AddStockForm.handleSubmit Sample.upper Sample.key Sample.no_text
            (Sample.always (Json (Sample.prev_close Sample.lit_1_1)))
            (Some "u1") None Sample.euro_form Sample.verified []))
  = None.
Proof.
  exact (proj1 (proj2 (submission_outcome Sample.upper Sample.key Sample.no_text
                  (Sample.always (Json (Sample.prev_close Sample.lit_1_1)))
                  "u1" None Sample.euro_form _ Sample.verified [] eq_refl eq_refl))).
Defined.

(** ** Further properties: editing a verified ticker *)

Section StaleValidation.
Variable toUpperCase : string -> string.
Variable POLYGON_API_KEY : option string.
Variable TextToNumber : json -> number.
Variable network : nat -> string -> response.

(** X7: changing the ticker to a non-empty value contacts nothing and
    leaves the dialog's state as it was; if the previous ticker had been
    verified the form stays submittable, and a submission made before
    the timer elapses inserts the new ticker, in uppercase, although it
    was never looked up. *)
Theorem edited_ticker_keeps_validation (v user_id : string) (insert_error : option string)
        (d : TickerField.Dialog) (raw values : AddStockForm.Values) (log : list event) :
  v <> "" ->
  AddStockForm.tickerValidated (TickerField.state d) = Some true ->
  AddStockForm.formSchema toUpperCase raw = Some values ->
  AddStockForm.ticker raw = v ->
  let changed := TickerField.changeTicker toUpperCase POLYGON_API_KEY network v d log in
  snd changed = log
  /\ TickerField.state (fst changed) = TickerField.state d
  /\ map ins_ticker
       (inserts (snd (AddStockForm.handleSubmit toUpperCase POLYGON_API_KEY TextToNumber network
                        (Some user_id) insert_error raw
                        (TickerField.state (fst changed)) (snd changed))))
     = map ins_ticker (inserts log) ++ [toUpperCase v].
Proof.
  intros Hv Hval Hs Ht. cbv zeta.
  assert (Hc : TickerField.changeTicker toUpperCase POLYGON_API_KEY network v d log
               = (fst (TickerField.changeTicker toUpperCase POLYGON_API_KEY network v d log), log)
               /\ TickerField.state
                    (fst (TickerField.changeTicker toUpperCase POLYGON_API_KEY network v d log))
                  = TickerField.state d).
  { unfold TickerField.changeTicker.
    destruct (String.eqb v (TickerField.tickerValue d)); [split; reflexivity |].
    unfold TickerField.tickerEffect, TickerField.watch. cbn [TickerField.tickerValue].
    rewrite (nonempty_has_length v Hv). unfold ret. cbn [fst TickerField.state].
    split; [reflexivity |].
    unfold TickerField.runCleanup. now destruct (TickerField.cleanup d). }
  destruct Hc as [Hc1 Hc2].
  rewrite Hc1. cbn [snd fst]. rewrite Hc2.
  split; [reflexivity |]. split; [reflexivity |].
  unfold AddStockForm.handleSubmit. rewrite Hs.
  rewrite onSubmit_inserts
    by (rewrite not_validated_with_ticker_error;
        unfold AddStockForm.not_validated; now rewrite Hval).
  cbn [snd]. rewrite inserts_app, priced_inserts, map_app.
  destruct (formSchema_inv toUpperCase raw values Hs) as (-> & _).
  cbn [AddStockForm.ticker]. rewrite Ht.
  destruct insert_error; reflexivity.
Qed.

End StaleValidation.

(** "aapl" was verified; the field is changed to "zzzz" and the form is
    submitted at once. *)
Lemma edited_ticker_keeps_validation_witness :
  map ins_ticker
    (inserts (snd (AddStockForm.handleSubmit Sample.upper Sample.key Sample.no_text
                     (Sample.always FetchFails) (Some "u1") None Scenario.unknown_form
                     (TickerField.state
                        (fst (TickerField.changeTicker Sample.upper Sample.key
                                (Sample.always FetchFails) "zzzz"
                                Scenario.verified_aapl [])))
                     [])))
  = ["ZZZZ"].
Proof.
  pose proof (edited_ticker_keeps_validation Sample.upper Sample.key Sample.no_text
                (Sample.always FetchFails) "zzzz" "u1" None Scenario.verified_aapl
                Scenario.unknown_form Scenario.unknown_parsed []) as H.
  cbv zeta in H.
  assert (H1 : "zzzz" <> "") by discriminate.
  destruct (H H1 eq_refl eq_refl eq_refl) as (_ & _ & Hi).
  exact Hi.
Defined.

(** ** Further properties: refreshing the table *)

Lemma unique_from_sublist (l : list string) :
  forall seen : list string, sublist (unique_from seen l) l.
Proof.
  induction l as [| x rest IH]; intros seen; cbn [unique_from].
  - constructor.
  - destruct (existsb (String.eqb x) seen).
    + apply sublist_cons, IH.
    + apply sublist_skip, IH.
Qed.

(** Of two entries of [unique_from seen l], the earlier one occurs in
    [l] before every occurrence of the later one. *)
Lemma unique_from_order (l : list string) :
  forall (seen : list string) (i j : nat) (t u : string),
    (i < j)%nat ->
    unique_from seen l !! i = Some t ->
    unique_from seen l !! j = Some u ->
    exists a, l !! a = Some t /\ forall b, l !! b = Some u -> (a < b)%nat.
Proof.
  induction l as [| x rest IH]; intros seen i j t u Hij Hi Hj; cbn [unique_from] in *.
  - now rewrite lookup_nil in Hi.
  - destruct (existsb (String.eqb x) seen) eqn:E.
    + destruct (IH seen i j t u Hij Hi Hj) as (a & Ha & Hb).
      exists (S a). split; [exact Ha |].
      intros [| b] Hu.
      * cbn in Hu. injection Hu as ->.
        apply list_elem_of_lookup_2 in Hj. apply unique_from_elem in Hj as [_ Hns].
        apply existsb_eqb_elem in E. contradiction.
      * cbn in Hu. specialize (Hb b Hu). lia.
    + destruct j as [| j]; [lia |]. cbn in Hj.
      assert (Hux : u <> x).
      { apply list_elem_of_lookup_2 in Hj. apply unique_from_elem in Hj as [_ Hns].
        intros ->. apply Hns. now left. }
      destruct i as [| i].
      * cbn in Hi. injection Hi as ->. exists 0%nat. split; [reflexivity |].
        intros [| b] Hu; [| lia]. cbn in Hu. congruence.
      * cbn in Hi.
        destruct (IH (x :: seen) i j t u ltac:(lia) Hi Hj) as (a & Ha & Hb).
        exists (S a). split; [exact Ha |].
        intros [| b] Hu.
        -- cbn in Hu. congruence.
        -- cbn in Hu. specialize (Hb b Hu). lia.
Qed.

(** X8: the tickers [fetchPortfolio] asks prices for are exactly the
    tickers of the holdings, each of them once, in the order in which
    they first appear: of two of them, the earlier one is the ticker of
    a holding that comes before every holding of the later one. *)
Theorem uniqueTickers_distinct_and_complete (portfolio : list (PortfolioItem number)) :
  NoDup (uniqueTickers portfolio)
  /\ (forall t, t ∈ uniqueTickers portfolio <-> exists it, it ∈ portfolio /\ ticker it = t)
  /\ sublist (uniqueTickers portfolio) (map ticker portfolio)
  /\ (List.length (uniqueTickers portfolio) <= List.length portfolio)%nat
  /\ (forall (i j : nat) (t u : string),
        (i < j)%nat ->
        uniqueTickers portfolio !! i = Some t ->
        uniqueTickers portfolio !! j = Some u ->
        exists a, map ticker portfolio !! a = Some t
                  /\ forall b, map ticker portfolio !! b = Some u -> (a < b)%nat)
  /\ uniqueTickers Sample.b_a_b = ["B"; "A"].
Proof.
  unfold uniqueTickers. split; [apply unique_from_NoDup |]. split; [| split; [| split; [| split]]].
  - intros t. rewrite unique_from_elem. split.
    + intros [H _]. apply list_elem_of_fmap in H as (it & -> & Hit). eauto.
    + intros (it & Hit & <-). split; [now apply list_elem_of_fmap_2 |].
      apply not_elem_of_nil.
  - apply unique_from_sublist.
  - rewrite <- (length_map ticker portfolio).
    apply sublist_length, unique_from_sublist.
  - apply unique_from_order.
  - reflexivity.
Qed.

Lemma requests_of_fetches (f : string -> string) (l : list string) :
  requests (map (fun t => Fetch (f t)) l) = map f l.
Proof. induction l as [| x rest IH]; cbn; [reflexivity | now rewrite <- IH]. Qed.

Lemma NoDup_not_later (l : list string) (i : nat) (t : string) :
  NoDup l -> l !! i = Some t -> t ∉ drop (S i) l.
Proof.
  intros Hnd Hi Hin.
  apply list_elem_of_lookup in Hin as [j Hj].
  rewrite lookup_drop in Hj.
  pose proof (NoDup_lookup l i (S i + j) t Hnd Hi Hj). lia.
Qed.

Section RefreshMore.
Variable POLYGON_API_KEY : option string.
Variable TextToNumber : json -> number.
Variable network : nat -> string -> response.

Abbreviation refresh := (fetchPortfolio POLYGON_API_KEY TextToNumber network).
Abbreviation priceUrl := (prevCloseUrl POLYGON_API_KEY).

Lemma fetchStockPrices_requests (tickers : list string) (log : list event) :
  requests (snd (fetchStockPrices POLYGON_API_KEY TextToNumber network tickers log))
  = requests log
    ++ (if key_missing POLYGON_API_KEY then [] else map priceUrl tickers).
Proof.
  unfold fetchStockPrices. destruct (key_missing POLYGON_API_KEY).
  - unfold ret; cbn [snd]. now rewrite app_nil_r.
  - destruct (fetchStockPrices_loop_spec POLYGON_API_KEY TextToNumber network
                tickers ∅ log (lookup_empty _)) as (Hlog & _).
    rewrite Hlog, requests_app. now rewrite requests_of_fetches.
Qed.

(** X9: a refresh of a portfolio that is not empty sends one price
    request per entry of [uniqueTickers], in the order of that list
    (none without an API key): one per distinct ticker, a ticker being
    requested before another when it is the ticker of a holding that
    comes before every holding of the other. It returns one row per
    holding, in the order of the holdings. With an API key, every row whose ticker is
    not [__proto__] is priced from the answer to the request made for
    its own ticker, and a row whose ticker is [__proto__] carries, in
    place of a price, the inherited member of that name; without a key
    every row is priced 0. A failed query keeps the rows shown and an
    empty portfolio clears them, and neither sends a request. *)
Theorem refresh_prices_every_holding (first : PortfolioItem number)
        (others : list (PortfolioItem number)) (current : list (DisplayItem number))
        (log : list event) :
  let portfolio := first :: others in
  let out := refresh (Some portfolio) current log in
  requests (snd out)
  = requests log
    ++ (if key_missing POLYGON_API_KEY then []
        else map priceUrl (uniqueTickers portfolio))
  /\ NoDup (uniqueTickers portfolio)
  /\ (forall (i j : nat) (t u : string),
        (i < j)%nat ->
        uniqueTickers portfolio !! i = Some t ->
        uniqueTickers portfolio !! j = Some u ->
        exists a, map ticker portfolio !! a = Some t
                  /\ forall b, map ticker portfolio !! b = Some u -> (a < b)%nat)
  /\ map item (fst out) = portfolio
  /\ (key_missing POLYGON_API_KEY = false ->
      forall i t,
        uniqueTickers portfolio !! i = Some t ->
        t <> "__proto__" ->
        forall row, row ∈ fst out -> ticker (item row) = t ->
          current_price row
          = Number (EditHoldingForm.or_zero
                      (stored_price TextToNumber
                         (network (List.length log + i)%nat (priceUrl t)))))
  /\ (key_missing POLYGON_API_KEY = false ->
      forall row, row ∈ fst out -> ticker (item row) = "__proto__" ->
        current_price row = Member "__proto__")
  /\ (key_missing POLYGON_API_KEY = true ->
      forall row, row ∈ fst out -> current_price row = Number JsNumber.zero)
  /\ refresh None current log = (current, log)
  /\ refresh (Some []) current log = ([], log).
Proof.
  cbv zeta.
  assert (Hout : refresh (Some (first :: others)) current log
                 = (displayHoldings (first :: others)
                      (fst (fetchStockPrices POLYGON_API_KEY TextToNumber network
                              (uniqueTickers (first :: others)) log)),
                    snd (fetchStockPrices POLYGON_API_KEY TextToNumber network
                           (uniqueTickers (first :: others)) log))).
  { unfold fetchPortfolio, bind, ret.
    now destruct (fetchStockPrices _ _ _ _ _). }
  rewrite Hout. cbn [fst snd].
  split; [apply fetchStockPrices_requests |].
  split; [apply unique_from_NoDup |].
  split; [apply unique_from_order |].
  split.
  { unfold displayHoldings. rewrite map_map. cbn [displayItem item]. apply map_id. }
  split; [| split; [| split; [| split; reflexivity]]].
  - intros Hk i t Hi Hnp row Hrow Ht.
    unfold displayHoldings in Hrow.
    apply list_elem_of_fmap in Hrow as (it & -> & _).
    cbn [displayItem current_price item] in *. subst t.
    unfold fetchStockPrices. rewrite Hk.
    destruct (fetchStockPrices_loop_spec POLYGON_API_KEY TextToNumber network
                (uniqueTickers (first :: others)) ∅ log (lookup_empty _))
      as (_ & _ & _ & _ & Hin).
    apply price_or_zero_own.
    apply (Hin i (ticker it) Hi); [| exact Hnp].
    apply NoDup_not_later; [apply unique_from_NoDup | exact Hi].
  - intros Hk row Hrow Ht.
    unfold displayHoldings in Hrow.
    apply list_elem_of_fmap in Hrow as (it & -> & _).
    cbn [displayItem current_price item] in *. rewrite Ht.
    unfold fetchStockPrices. rewrite Hk.
    destruct (fetchStockPrices_loop_spec POLYGON_API_KEY TextToNumber network
                (uniqueTickers (first :: others)) ∅ log (lookup_empty _))
      as (_ & Hproto & _).
    unfold price_or_zero, PlainObject.get. now rewrite Hproto.
  - intros Hk row Hrow. unfold displayHoldings in Hrow.
    apply list_elem_of_fmap in Hrow as (it & -> & Hit).
    cbn [displayItem current_price]. unfold fetchStockPrices.
    rewrite Hk. unfold ret, fromEntries; cbn [fst].
    pose proof (fromEntries_zero_acc (uniqueTickers (first :: others)) ∅) as Hz.
    cbv zeta in Hz. destruct Hz as (_ & Hz & _).
    rewrite (price_or_zero_own _ (ticker it) JsNumber.zero); [reflexivity |].
    apply Hz. unfold uniqueTickers. apply unique_from_elem.
    split; [now apply list_elem_of_fmap_2 | apply not_elem_of_nil].
Qed.

End RefreshMore.

(** Holdings of B, A and B again: the requests are those for B and A,
    answered with 150 and 20, and the last row is priced from the
    first answer. *)
Lemma refresh_prices_every_holding_witness :
  requests (snd (fetchPortfolio Sample.key Sample.no_text Sample.two_answers
                   (Some Sample.b_a_b) [] []))
  = [prevCloseUrl Sample.key "B"; prevCloseUrl Sample.key "A"]
  /\ current_price Sample.second_b_row
     = Number (EditHoldingForm.or_zero
                 (stored_price Sample.no_text
                    (Json (Sample.prev_close (JsNumber.of_Z 150))))).
Proof.
  pose proof (refresh_prices_every_holding Sample.key Sample.no_text
                Sample.two_answers
                {| id := "h10"; ticker := "B"; quantity := JsNumber.of_Z 1;
                   purchase_price := JsNumber.of_Z 1; purchase_date := "2024-01-02" |}
                (tl Sample.b_a_b) [] []) as H.
  cbv zeta in H. destruct H as (Hreq & _ & _ & _ & H & _).
  split; [exact Hreq |].
  apply (H eq_refl 0%nat "B" eq_refl ltac:(discriminate) Sample.second_b_row);
    [| reflexivity].
  vm_compute. apply list_elem_of_further, list_elem_of_further, list_elem_of_here.
Defined.

(** ** Further properties: which answers the rate functions accept *)

Section StatusCheck.
Variable POLYGON_API_KEY : option string.
Variable TextToNumber : json -> number.
Variable network : nat -> string -> response.

(** X10: the three readers of a previous-close answer do not ask the
    same of it. For an answer that carries a numeric close,
    [fetchExchangeRate] and the price loop use the close whatever the
    answer's status, while [fetchEuroToUsdRate] uses it only when the
    status is "OK" and falls back to 1.08 otherwise. *)
Theorem only_the_euro_rate_checks_the_status
        (fields : list (string * json)) (c : number) (from to : string)
        (log : list event) :
  carries_close (JObj fields) c ->
  key_missing POLYGON_API_KEY = false ->
  from <> to ->
  network (List.length log) (prevCloseUrl POLYGON_API_KEY ("C:" +:+ from +:+ to))
  = Json (JObj fields) ->
  network (List.length log) (prevCloseUrl POLYGON_API_KEY "C:EURUSD")
  = Json (JObj fields) ->
  fst (fetchExchangeRate POLYGON_API_KEY TextToNumber network from to log) = c
  /\ stored_price TextToNumber (Json (JObj fields)) = c
  /\ fst (fetchEuroToUsdRate POLYGON_API_KEY TextToNumber network log)
     = (if Js.is_string (Js.own "status" fields) "OK" then c else JsNumber.lit_1_08).
Proof.
  intros Hc Hk Hne Hx He.
  destruct (carries_close_has_results TextToNumber _ _ Hc) as (Ht & Hh & Hf).
  split; [| split].
  - unfold fetchExchangeRate. apply String.eqb_neq in Hne. rewrite Hne, Hk.
    unfold bind, fetch_json, ret; cbn [fst]. rewrite Hx.
    unfold exchange_close. rewrite Ht, Hh. cbn [cbind]. now rewrite Hf.
  - now apply stored_price_close.
  - unfold fetchEuroToUsdRate. rewrite Hk.
    unfold bind, fetch_json, ret; cbn [fst]. rewrite He.
    unfold euro_close. cbn [Js.get cbind].
    destruct (Js.is_string (Js.own "status" fields) "OK"); [| reflexivity].
    rewrite Hh. cbn [cbind]. now rewrite Hf.
Qed.

End StatusCheck.

(** The same answer, marked "DELAYED", read by both rate functions. *)
Lemma only_the_euro_rate_checks_the_status_witness :
  fst (fetchExchangeRate Sample.key Sample.no_text
         (Sample.always (Json Scenario.delayed_close)) "USD" "EUR" []) = Sample.lit_1_1
  /\ fst (fetchEuroToUsdRate Sample.key Sample.no_text
            (Sample.always (Json Scenario.delayed_close)) []) = JsNumber.lit_1_08.
Proof.
  assert (Hc : carries_close Scenario.delayed_close Sample.lit_1_1).
  { eexists _, _, _. repeat split; reflexivity. }
  assert (Hne : "USD" <> "EUR") by discriminate.
  pose proof (only_the_euro_rate_checks_the_status Sample.key Sample.no_text
                (Sample.always (Json Scenario.delayed_close)) _ Sample.lit_1_1
                "USD" "EUR" [] Hc eq_refl Hne eq_refl eq_refl) as (H1 & _ & H2).
  split; [exact H1 | exact H2].
Defined.

(** ** Further properties: a session in the edit dialog *)

Lemma or_zero_not_nan (x : number) : JsNumber.is_nan (EditHoldingForm.or_zero x) = false.
Proof. now destruct x. Qed.

Lemma edit_changes_keep_numbers (changes : list EditSession.Change) :
  forall data : EditHoldingForm.Data,
    JsNumber.is_nan (EditHoldingForm.quantity data) = false ->
    JsNumber.is_nan (EditHoldingForm.purchase_price data) = false ->
    JsNumber.is_nan (EditHoldingForm.quantity (fold_left EditSession.change changes data))
    = false
    /\ JsNumber.is_nan
         (EditHoldingForm.purchase_price (fold_left EditSession.change changes data))
       = false.
Proof.
  induction changes as [| c rest IH]; intros data Hq Hp; cbn [fold_left].
  - now split.
  - apply IH; destruct c; cbn; auto using or_zero_not_nan.
Qed.

(** X11: however the fields of the edit form are changed before saving,
    the save sends exactly one update, for the holding the dialog was
    opened on, and the quantity and the price it writes are numbers:
    a field left empty or unreadable is written as 0, never as NaN. *)
Theorem edit_session_writes_numbers (update_error : option string)
        (holding : PortfolioItem number) (changes : list EditSession.Change)
        (log : list event) :
  JsNumber.is_nan (quantity holding) = false ->
  JsNumber.is_nan (purchase_price holding) = false ->
  exists fields,
    updates (snd (EditSession.editAndSave update_error holding changes log))
    = updates log ++ [(id holding, fields)]
    /\ JsNumber.is_nan (upd_quantity fields) = false
    /\ JsNumber.is_nan (upd_purchase_price fields) = false
    /\ inserts (snd (EditSession.editAndSave update_error holding changes log))
       = inserts log.
Proof.
  intros Hq Hp. unfold EditSession.editAndSave.
  eexists. split; [apply handleSave_updates |].
  cbn [upd_quantity upd_purchase_price].
  destruct (edit_changes_keep_numbers changes (EditHoldingForm.initial holding))
    as [H1 H2]; [exact Hq | exact Hp |].
  split; [exact H1 |]. split; [exact H2 |].
  unfold EditHoldingForm.handleSave, bind, emit.
  destruct update_error; cbn [snd]; rewrite !inserts_app; cbn; now rewrite !app_nil_r.
Qed.

(** The quantity field of the AAPL holding is cleared, then saved. *)
Lemma edit_session_writes_numbers_witness :
  exists fields,
    updates (snd (EditSession.editAndSave None Sample.aapl
                    [EditSession.ChangeQuantity S754_nan] []))
    = [("h1", fields)]
    /\ JsNumber.is_nan (upd_quantity fields) = false.
Proof.
  destruct (edit_session_writes_numbers None Sample.aapl
              [EditSession.ChangeQuantity S754_nan] [] eq_refl eq_refl)
    as (fields & Hu & Hq & _).
  exists fields. split; [exact Hu | exact Hq].
Defined.

(** ** Further properties: the table in USD *)

Lemma shift_right_52 (m : positive) :
  SpecFloat.iter_pos shr_1 52
    {| shr_m := Zpos (4503599627370496 * m); shr_r := false; shr_s := false |}
  = {| shr_m := Zpos m; shr_r := false; shr_s := false |}.
Proof. reflexivity. Qed.

Lemma digits_shifted_52 (m : positive) :
  Zpos (digits2_pos (4503599627370496 * m)) = Zpos (digits2_pos m) + 52.
Proof.
  cbv [Pos.mul]. cbn [digits2_pos]. rewrite !Pos2Z.inj_succ. lia.
Qed.

(** Multiplying by 1.0 changes nothing. *)
Lemma mul_one_exact (x : number) :
  canonical x = true -> JsNumber.mul x JsNumber.one = x.
Proof.
  unfold canonical.
  destruct x as [s | s | | s m e]; cbn [valid_binary]; intros Hv.
  - cbn. now destruct s.
  - cbn. now destruct s.
  - reflexivity.
  - unfold bounded, canonical_mantissa in Hv.
    apply andb_true_iff in Hv as [Hc Hb].
    apply Z.eqb_eq in Hc.
    unfold JsNumber.mul, JsNumber.one, SFmul, binary_round_aux.
    rewrite Pos.mul_comm.
    assert (E1 : shr_fexp JsNumber.prec JsNumber.emax
                   (Zpos (4503599627370496 * m)) (e + -52) loc_Exact
                 = ({| shr_m := Zpos m; shr_r := false; shr_s := false |}, e)).
    { unfold shr_fexp. cbn [Zdigits2]. rewrite digits_shifted_52.
      replace (Zpos (digits2_pos m) + 52 + (e + -52))
        with (Zpos (digits2_pos m) + e) by lia.
      rewrite Hc. replace (e - (e + -52)) with 52 by lia.
      unfold shr. cbn [shr_record_of_loc]. rewrite shift_right_52. f_equal. lia. }
    rewrite E1. cbn [shr_m loc_of_shr_record round_nearest_even].
    assert (E2 : shr_fexp JsNumber.prec JsNumber.emax (Zpos m) e loc_Exact
                 = ({| shr_m := Zpos m; shr_r := false; shr_s := false |}, e)).
    { unfold shr_fexp. cbn [Zdigits2]. rewrite Hc, Z.sub_diag. reflexivity. }
    rewrite E2. cbn [shr_m]. rewrite Hb. now destruct s.
Qed.

Section UsdDisplay.
Variable POLYGON_API_KEY : option string.
Variable TextToNumber : json -> number.
Variable network : nat -> string -> response.

(** X12: choosing USD sends no request. Whenever the rate ends up 1.0,
    which is the case when USD is chosen, when no API key is configured
    and when the rate request fails, every amount of a row is shown
    exactly as it is stored, under the label of the chosen currency:
    the conversion does not round. *)
Theorem rate_one_shows_stored_amounts (newCurrency : string)
        (row : DisplayItem number) (log : list event) :
  newCurrency = "USD"
  \/ key_missing POLYGON_API_KEY = true
  \/ network (List.length log) (prevCloseUrl POLYGON_API_KEY ("C:" +:+ "USD" +:+ newCurrency))
     = FetchFails ->
  canonical (purchase_price (item row)) = true ->
  canonical (to_number (current_price row)) = true ->
  canonical (market_value row) = true ->
  canonical (gain_loss row) = true ->
  let chosen :=
    handleCurrencyChange POLYGON_API_KEY TextToNumber network newCurrency log in
  (newCurrency = "USD" -> snd chosen = log)
  /\ fst chosen = JsNumber.one
  /\ rowCells (fst chosen) row
     = {| cell_cost_per_share := purchase_price (item row);
          cell_current_price := to_number (current_price row);
          cell_market_value := market_value row;
          cell_gain_loss := gain_loss row;
          cell_gain_loss_percent := gain_loss_percent row |}.
Proof.
  intros Hwhy H1 H2 H3 H4. cbv zeta.
  assert (Hone : fst (handleCurrencyChange POLYGON_API_KEY TextToNumber network
                        newCurrency log) = JsNumber.one).
  { unfold handleCurrencyChange.
    destruct (String.eqb newCurrency "USD") eqn:E; [reflexivity |].
    destruct Hwhy as [-> | [Hk | Hn]].
    - discriminate E.
    - now rewrite fetchExchangeRate_no_key.
    - destruct (fetchExchangeRate_cases POLYGON_API_KEY TextToNumber network
                  "USD" newCurrency log) as [H | (data & c & Hd & _)];
        [exact H | congruence]. }
  split; [intros ->; reflexivity |].
  split; [exact Hone |].
  rewrite Hone. unfold rowCells. cbn [num_mul binary64_arith].
  now rewrite !mul_one_exact.
Qed.

End UsdDisplay.

(** The row of the AAPL scenario, shown in EUR without an API key. *)
Lemma rate_one_shows_stored_amounts_witness :
  cell_market_value
    (rowCells (fst (handleCurrencyChange None Sample.no_text
                      (Sample.always FetchFails) "EUR" []))
              Sample.aapl_row)
  = JsNumber.of_Z 1500.
Proof.
  pose proof (rate_one_shows_stored_amounts None Sample.no_text
                (Sample.always FetchFails) "EUR" Sample.aapl_row []
                (or_intror (or_introl eq_refl))
                eq_refl eq_refl eq_refl eq_refl) as H.
  cbv zeta in H. destruct H as (_ & _ & H).
  rewrite H. reflexivity.
Defined.
